(** * Document Q&A frontend: state transitions of the React components

    A shallow embedding of the state-transition logic of
    [frontend/src/App.jsx], [frontend/src/components/AdminDashboard.jsx],
    [frontend/src/components/ChatInterface.jsx] and
    [frontend/src/services/api-service.js].

    Conventions of the embedding:
    - a React state cell is a record field; an event handler is a function
      from the component state (and the outcome of the backend call it
      awaits) to the next state and the list of effects it performed;
    - an awaited promise is an [Outcome]: [Resolved v] or [Rejected msg];
    - a JavaScript value that may be [undefined]/[null] is an [option];
    - a string is a sequence of code units below 256;
    - [localStorage] and the upload-progress object are [gmap string _];
    - arrays are lists, [arr[i]] is [arr !! i], [arr.map((x, i) => ...)]
      is [imap]. *)

From Stdlib Require Import ZArith QArith String Ascii DecimalString List Bool Lia.
From stdpp Require Import base option list strings gmap.
Import ListNotations.

Close Scope Q_scope.
Local Open Scope string_scope.
Local Open Scope list_scope.

(** ** JavaScript values and string primitives *)

Module Js.

(** Result of an awaited call: the promise resolves or rejects. *)
Inductive Outcome (A : Type) : Type :=
| Resolved (v : A)
| Rejected (msg : string).
Arguments Resolved {A} v.
Arguments Rejected {A} msg.

(** Truthiness of a possibly-undefined string: [undefined] and the empty
    string are falsy. *)
Definition truthy (v : option string) : bool :=
  match v with
  | Some s => negb (String.eqb s "")
  | None => false
  end.

(** [a || b] on possibly-undefined strings. *)
Definition orElse (a b : option string) : option string :=
  if truthy a then a else b.

(** [a === b] on possibly-undefined strings. *)
Definition strictEq (a b : option string) : bool :=
  match a, b with
  | Some x, Some y => String.eqb x y
  | None, None => true
  | _, _ => false
  end.

(** Code units that [String.prototype.trim] strips (those below 256):
    TAB, LF, VT, FF, CR, SPACE and NBSP. *)
Definition isWhiteSpace (c : ascii) : bool :=
  let n := nat_of_ascii c in
  (n =? 9)%nat || (n =? 10)%nat || (n =? 11)%nat || (n =? 12)%nat
  || (n =? 13)%nat || (n =? 32)%nat || (n =? 160)%nat.

Fixpoint trimStart (s : string) : string :=
  match s with
  | EmptyString => EmptyString
  | String c r => if isWhiteSpace c then trimStart r else s
  end.

(** [trimEnd] written as a right fold: a white-space character is dropped
    exactly when everything after it has been dropped. *)
Fixpoint trimEnd (s : string) : string :=
  match s with
  | EmptyString => EmptyString
  | String c r =>
      match trimEnd r with
      | EmptyString => if isWhiteSpace c then EmptyString else String c EmptyString
      | r' => String c r'
      end
  end.

Definition trim (s : string) : string := trimEnd (trimStart s).

(** Truthiness of a string: non-empty. *)
Definition nonEmpty (s : string) : bool :=
  match s with EmptyString => false | _ => true end.

(** [toLowerCase] on one code unit: [A]..[Z] go to [a]..[z].  Code units
    outside that range are kept; no letter outside ASCII has a lower-case
    form among the letters of the accepted extensions, so membership in
    the accepted list is the same as under the full Unicode mapping. *)
Definition lowerChar (c : ascii) : ascii :=
  let n := nat_of_ascii c in
  if ((65 <=? n)%nat && (n <=? 90)%nat)%bool then ascii_of_nat (n + 32) else c.

Fixpoint toLowerCase (s : string) : string :=
  match s with
  | EmptyString => EmptyString
  | String c r => String (lowerChar c) (toLowerCase r)
  end.

(** [s.split('.')]: the pieces between the dots, at least one piece.
    [splitDot_go acc s] carries the piece being read, reversed. *)
Fixpoint rev_string (acc s : string) : string :=
  match s with
  | EmptyString => acc
  | String c r => rev_string (String c acc) r
  end.

Fixpoint splitDot_go (cur : string) (s : string) : list string :=
  match s with
  | EmptyString => [rev_string EmptyString cur]
  | String c r =>
      if Ascii.eqb c "."%char
      then rev_string EmptyString cur :: splitDot_go EmptyString r
      else splitDot_go (String c cur) r
  end.

Definition splitDot (s : string) : list string := splitDot_go EmptyString s.

(** [arr.pop()]: the last element, [undefined] on an empty array. *)
Definition pop (l : list string) : option string := last l.

Fixpoint hasDot (s : string) : bool :=
  match s with
  | EmptyString => false
  | String c r => Ascii.eqb c "."%char || hasDot r
  end.

End Js.

Import Js.

(** ** Backend calls and effects *)

(** The methods of [ApiService] a handler can invoke, with their arguments.
    An identifier argument is the JavaScript value passed, which may be
    [undefined]. *)
Inductive ApiCall : Type :=
| listDocuments
| setActiveDocument (documentId : option string)
| updateIngestedStatus (documentId : option string) (status : bool)
| uploadDocument (name : string)
| getProcessingStatus (taskId : string)
| triggerDemoFileIngest (taskId : string)
| queryDocument (query : string) (sessionId : option string) (documentId : option string)
| getChatHistory (sessionId : string)
| clearAllChatHistory.

(** ** Document registry: [AdminDashboard.jsx] *)

Module AdminDashboard.

(** A document as the backend lists it. *)
Record RawDocument : Type := mkRaw {
  raw_id : option string;
  raw_task_id : option string;
  raw_filename : option string;
  raw_upload_time : option string;
  raw_processing_status : option string }.

(** A document of the [uploadedFiles] state: the backend's fields, with
    [task_id], [ingested] and [isActive] derived by [loadUploadedFiles]. *)
Record Document : Type := mkDocument {
  id : option string;
  task_id : option string;
  filename : option string;
  upload_time : option string;
  processing_status : option string;
  ingested : bool;
  isActive : bool }.

Definition with_isActive (b : bool) (d : Document) : Document :=
  {| id := id d; task_id := task_id d; filename := filename d;
     upload_time := upload_time d; processing_status := processing_status d;
     ingested := ingested d; isActive := b |}.

Definition with_ingested_isActive (g a : bool) (d : Document) : Document :=
  {| id := id d; task_id := task_id d; filename := filename d;
     upload_time := upload_time d; processing_status := processing_status d;
     ingested := g; isActive := a |}.

Record UploadProgressEntry : Type := mkEntry {
  progress : Q;
  status : string;
  message : option string;
  error : option string }.

Record DemoIngestState : Type := mkDemo {
  demo_status : option string;
  demo_messages : list string }.

(** Effects a handler performs, in order. *)
Inductive Effect : Type :=
| Alert (msg : string)
| Call (c : ApiCall)
| Publish (d : option Document)        (* onActiveDocumentChange(d) *)
| MonitorProcessing (taskId name : string)
| SetTimeout (ms : Z)
| Uncaught (msg : string).             (* the handler's promise rejects *)

Definition isCall (e : Effect) : bool :=
  match e with Call _ => true | _ => false end.
Definition isAlert (e : Effect) : bool :=
  match e with Alert _ => true | _ => false end.

(** The state cells of the component, and the part of [localStorage]
    it reads and writes. *)
Record State : Type := mkState {
  uploadedFiles : list Document;
  uploadProgress : gmap string UploadProgressEntry;
  demoIngestState : DemoIngestState;
  demoIngested : bool;
  localStorage : gmap string string }.

Definition set_uploadedFiles (l : list Document) (st : State) : State :=
  {| uploadedFiles := l; uploadProgress := uploadProgress st;
     demoIngestState := demoIngestState st; demoIngested := demoIngested st;
     localStorage := localStorage st |}.

Definition set_uploadProgress (m : gmap string UploadProgressEntry) (st : State) : State :=
  {| uploadedFiles := uploadedFiles st; uploadProgress := m;
     demoIngestState := demoIngestState st; demoIngested := demoIngested st;
     localStorage := localStorage st |}.

Definition set_demoIngestState (d : DemoIngestState) (st : State) : State :=
  {| uploadedFiles := uploadedFiles st; uploadProgress := uploadProgress st;
     demoIngestState := d; demoIngested := demoIngested st;
     localStorage := localStorage st |}.

Definition set_demoIngested (b : bool) (st : State) : State :=
  {| uploadedFiles := uploadedFiles st; uploadProgress := uploadProgress st;
     demoIngestState := demoIngestState st; demoIngested := b;
     localStorage := localStorage st |}.

Definition set_localStorage (m : gmap string string) (st : State) : State :=
  {| uploadedFiles := uploadedFiles st; uploadProgress := uploadProgress st;
     demoIngestState := demoIngestState st; demoIngested := demoIngested st;
     localStorage := m |}.

(** The component as first rendered: the [useState] initial values. *)
Definition initial (ls : gmap string string) : State :=
  {| uploadedFiles := []; uploadProgress := ∅;
     demoIngestState := mkDemo None []; demoIngested := false;
     localStorage := ls |}.

(** *** [loadUploadedFiles] *)

Definition isCompleted (f : RawDocument) : bool :=
  strictEq (raw_processing_status f) (Some "completed").

(** The callback of [.map((f, idx, arr) => ...)]. *)
Definition deriveDocument (arr : list RawDocument) (idx : nat) (f : RawDocument) : Document :=
  {| id := raw_id f;
     task_id := orElse (orElse (raw_id f) (raw_task_id f)) (raw_filename f);
     filename := raw_filename f;
     upload_time := raw_upload_time f;
     processing_status := raw_processing_status f;
     ingested := isCompleted f;
     isActive :=
       (Z.of_nat idx =? Z.of_nat (length (List.filter isCompleted arr)) - 1)%Z
       && isCompleted f |}.

Definition deriveFiles (arr : list RawDocument) : list Document :=
  imap (deriveDocument arr) arr.

(** [response] is what [apiService.listDocuments()] resolves to: its
    [documents] field, absent ([None]) when the body has none. *)
Definition loadUploadedFiles (response : Outcome (option (list RawDocument)))
    (st : State) : State * list Effect :=
  match response with
  | Resolved documents =>
      let files := deriveFiles (default [] documents) in
      let activeFile := List.find isActive files in
      (set_uploadedFiles files st,
       Call listDocuments ::
       match activeFile with
       | Some d => [Publish (Some d)]
       | None => []
       end)
  | Rejected _ =>
      (set_uploadedFiles [] st, [Call listDocuments; Publish None])
  end.

(** *** [handleSetActive] *)

Definition handleSetActive (activeIdx : nat) (response : Outcome unit)
    (st : State) : State * list Effect :=
  match uploadedFiles st !! activeIdx with
  | None => (st, [Alert "Document ID undefined, cannot set active document."])
  | Some selectedDoc =>
      if negb (truthy (task_id selectedDoc)) then
        (st, [Alert "Document ID undefined, cannot set active document."])
      else
        let call := Call (setActiveDocument (orElse (task_id selectedDoc) (id selectedDoc))) in
        match response with
        | Resolved _ =>
            let updated :=
              imap (fun i d => with_isActive (Nat.eqb i activeIdx) d) (uploadedFiles st) in
            (set_uploadedFiles updated st, [call; Publish (Some selectedDoc)])
        | Rejected _ =>
            (st, [call; Alert "Failed to update active document."])
        end
  end.

(** *** [handleToggleIngested] *)

Definition handleToggleIngested (idx : nat) (response : Outcome unit)
    (st : State) : State * list Effect :=
  match uploadedFiles st !! idx with
  | None =>
      (* [doc] is undefined and [doc.ingested] throws before the [try] *)
      (st, [Uncaught "TypeError"])
  | Some doc =>
      let newStatus := negb (ingested doc) in
      let call := Call (updateIngestedStatus (orElse (id doc) (filename doc)) newStatus) in
      match response with
      | Resolved _ =>
          let updated :=
            imap (fun i d =>
                    if Nat.eqb i idx
                    then with_ingested_isActive newStatus newStatus d
                    else with_isActive false d)
                 (uploadedFiles st) in
          (set_uploadedFiles updated st, [call; Publish (List.find isActive updated)])
      | Rejected _ =>
          (st, [call; Alert "Failed to update ingested status."])
      end
  end.

(** *** [handleFileUpload] and [ApiService.uploadDocument] *)

Record File : Type := mkFile {
  name : string;
  size : Z }.

Definition allowedTypes : list string := [".pdf"; ".docx"; ".txt"].

(** ['.' + file.name.split('.').pop().toLowerCase()] *)
Definition fileExt (file : File) : string :=
  String.append "." (toLowerCase (default "" (pop (splitDot (name file))))).

Definition includes (l : list string) (s : string) : bool :=
  existsb (String.eqb s) l.

(** What the [XMLHttpRequest] of [uploadDocument] ends with: [onload] with
    the HTTP status, its status text and the parsed body ([None] when
    reading the body as a JSON object throws, otherwise its [task_id]
    field), or [onerror]. *)
Inductive XhrResult : Type :=
| XhrLoad (httpStatus : Z) (statusText : string) (json : option (option string))
| XhrError.

(** A status number as a template literal renders it. *)
Definition statusString (httpStatus : Z) : string :=
  NilZero.string_of_int (Z.to_int httpStatus).

(** The promise built by [ApiService.uploadDocument]; it resolves to the
    response's [task_id], which it has checked to be present (so the
    handler's own [!response?.task_id] test never fires).  A status other
    than 200 rejects with [`Upload failed: ${xhr.status} ${xhr.statusText}`]. *)
Definition uploadDocument_result (x : XhrResult) : Outcome string :=
  match x with
  | XhrLoad httpStatus statusText json =>
      if (httpStatus =? 200)%Z then
        match json with
        | Some tid =>
            if truthy tid then Resolved (default "" tid)
            else Rejected "Upload response missing task_id"
        | None => Rejected "Invalid JSON response from upload"
        end
      else
        Rejected (String.append "Upload failed: "
                    (String.append (statusString httpStatus)
                       (String.append " " statusText)))
  | XhrError => Rejected "Upload failed due to network error"
  end.

Definition uploadingEntry (p : Q) : UploadProgressEntry :=
  {| progress := p; status := "uploading"; message := None; error := None |}.

Definition errorEntry (msg : string) : UploadProgressEntry :=
  {| progress := 0%Q; status := "error"; message := None; error := Some msg |}.

(** [progressEvents] are the percentages reported by the upload's progress
    listener, in order; [xhr] is how the request ends. *)
Definition handleFileUpload (file : File) (progressEvents : list Q) (xhr : XhrResult)
    (st : State) : State * list Effect :=
  if negb (includes allowedTypes (fileExt file)) then
    (st, [Alert "Unsupported file format. Please upload PDF, DOCX, or TXT files only."])
  else if (size file >? 200 * 1024 * 1024)%Z then
    (st, [Alert "File too large. Maximum size is 200MB."])
  else
    let started := <[name file := uploadingEntry 0%Q]> (uploadProgress st) in
    let reported :=
      fold_left (fun m p => <[name file := uploadingEntry p]> m) progressEvents started in
    match uploadDocument_result xhr with
    | Resolved taskId =>
        (set_uploadProgress reported st,
         [Call (uploadDocument (name file)); MonitorProcessing taskId (name file)])
    | Rejected msg =>
        (set_uploadProgress (<[name file := errorEntry msg]> reported) st,
         [Call (uploadDocument (name file))])
    end.

(** *** Demo ingestion *)

Definition DEMO_FILES : list (string * string) :=
  [("sample w graph.pdf", "demo_graph"); ("sampledata.pdf", "demo_data")].

(** The mount effect that loads the persisted demo-ingestion flag. *)
Definition loadDemoIngestedFlag (st : State) : State :=
  if bool_decide (localStorage st !! "demoFilesIngested" = Some "true")
  then set_demoIngested true st
  else st.

(** The [for] loop awaiting [triggerDemoFileIngest] for each demo file:
    the calls made, and whether one of them rejected. *)
Fixpoint triggerAll (trigger : string -> Outcome unit) (files : list (string * string))
    : list Effect * bool :=
  match files with
  | [] => ([], true)
  | (_, tid) :: rest =>
      match trigger tid with
      | Resolved _ =>
          let '(effs, ok) := triggerAll trigger rest in
          (Call (triggerDemoFileIngest tid) :: effs, ok)
      | Rejected _ => ([Call (triggerDemoFileIngest tid)], false)
      end
  end.

Inductive PollRound : Type :=
| AllDone
| NotDone
| Threw (msg : string).

(** One run of the [for] loop of [pollStatuses]: it stops at the first demo
    file whose status is not ['completed']. *)
Fixpoint pollOnce (poll : string -> Outcome (option string)) (files : list (string * string))
    : list Effect * PollRound :=
  match files with
  | [] => ([], AllDone)
  | (_, tid) :: rest =>
      match poll tid with
      | Resolved statusResp =>
          if negb (strictEq statusResp (Some "completed"))
          then ([Call (getProcessingStatus tid)], NotDone)
          else
            let '(effs, r) := pollOnce poll rest in
            (Call (getProcessingStatus tid) :: effs, r)
      | Rejected msg => ([Call (getProcessingStatus tid)], Threw msg)
      end
  end.

(** [pollStatuses], one element of [rounds] per run: the statuses the
    backend reports in that run.  [listResponse] is what the closing
    [loadUploadedFiles] receives.  With no round left the next timer has
    not fired yet. *)
Fixpoint pollStatuses (rounds : list (string -> Outcome (option string)))
    (listResponse : Outcome (option (list RawDocument))) (st : State)
    : State * list Effect :=
  match rounds with
  | [] => (st, [])
  | poll :: later =>
      match pollOnce poll DEMO_FILES with
      | (effs, AllDone) =>
          let st1 :=
            set_demoIngestState
              (mkDemo (Some "done") ["✅ All demo documents processed successfully!"]) st in
          let '(st2, effs2) := loadUploadedFiles listResponse st1 in
          (st2, effs ++ effs2)
      | (effs, NotDone) =>
          let '(st2, effs2) := pollStatuses later listResponse st in
          (st2, effs ++ SetTimeout 2000 :: effs2)
      | (effs, Threw msg) => (st, effs ++ [Uncaught msg])
      end
  end.

Definition startDemoIngestion (trigger : string -> Outcome unit)
    (rounds : list (string -> Outcome (option string)))
    (listResponse : Outcome (option (list RawDocument))) (st : State)
    : State * list Effect :=
  let st1 :=
    set_demoIngestState
      (mkDemo (Some "processing")
              (List.map (fun f => String.append "Processing " (String.append (fst f) "..."))
                        DEMO_FILES)) st in
  match triggerAll trigger DEMO_FILES with
  | (effs, true) =>
      let '(st2, effs2) := pollStatuses rounds listResponse st1 in
      (st2, effs ++ effs2)
  | (effs, false) =>
      (set_demoIngestState
         (mkDemo (Some "error") ["Error processing demo files. Please try again."]) st1,
       effs)
  end.

(** The effect on [isDemoMode, demoIngested]. *)
Definition demoModeEffect (isDemoMode : bool) (trigger : string -> Outcome unit)
    (rounds : list (string -> Outcome (option string)))
    (listResponse : Outcome (option (list RawDocument))) (st : State)
    : State * list Effect :=
  if isDemoMode && negb (demoIngested st) then
    startDemoIngestion trigger rounds listResponse st
  else if negb isDemoMode then
    let st1 := set_demoIngestState (mkDemo None []) st in
    let st2 := set_demoIngested false st1 in
    let st3 := set_localStorage (delete "demoFilesIngested" (localStorage st2)) st2 in
    loadUploadedFiles listResponse st3
  else (st, []).

(** *** [monitorProcessing] *)

(** The body of a processing-status response. *)
Record StatusResponse : Type := mkStatus {
  resp_status : option string;
  resp_progress : option Q;
  resp_message : option string }.

(** The entry written on every answered tick:
    [status?.progress ?? 0], [status?.status ?? 'unknown'],
    [status?.message ?? '']. *)
Definition polledEntry (response : option StatusResponse) : UploadProgressEntry :=
  {| progress := default 0%Q (response ≫= resp_progress);
     status := default "unknown" (response ≫= resp_status);
     message := Some (default "" (response ≫= resp_message));
     error := None |}.

(** One run of the interval callback.  The boolean tells whether the
    interval is still armed afterwards ([clearInterval] not reached). *)
Definition monitorTick (taskId filename : string)
    (response : Outcome (option StatusResponse))
    (listResponse : Outcome (option (list RawDocument)))
    (st : State) : State * list Effect * bool :=
  match response with
  | Resolved body =>
      let st1 := set_uploadProgress (<[filename := polledEntry body]> (uploadProgress st)) st in
      let reported := body ≫= resp_status in
      if strictEq reported (Some "completed") then
        let '(st2, effs) := loadUploadedFiles listResponse st1 in
        (st2, Call (getProcessingStatus taskId) :: effs ++ [SetTimeout 3000], false)
      else if strictEq reported (Some "error") then
        (st1, [Call (getProcessingStatus taskId)], false)
      else
        (st1, [Call (getProcessingStatus taskId)], true)
  | Rejected _ =>
      (set_uploadProgress (<[filename := errorEntry "Processing failed"]> (uploadProgress st)) st,
       [Call (getProcessingStatus taskId)], false)
  end.

(** The interval of [monitorProcessing], one element of [ticks] per firing,
    each request being answered before the next firing.  With no tick left
    the interval has not fired again yet. *)
Fixpoint monitorProcessing (taskId filename : string)
    (ticks : list (Outcome (option StatusResponse)))
    (listResponse : Outcome (option (list RawDocument)))
    (st : State) : State * list Effect :=
  match ticks with
  | [] => (st, [])
  | response :: later =>
      match monitorTick taskId filename response listResponse st with
      | (st1, effs, true) =>
          let '(st2, effs2) := monitorProcessing taskId filename later listResponse st1 in
          (st2, effs ++ effs2)
      | (st1, effs, false) => (st1, effs)
      end
  end.

(** The callback of the 3000 ms timer armed on completion. *)
Definition removeProgressEntry (filename : string) (st : State) : State :=
  set_uploadProgress (delete filename (uploadProgress st)) st.

(** A tick after which the interval is cleared. *)
Definition terminalTick (response : Outcome (option StatusResponse)) : bool :=
  match response with
  | Resolved body =>
      strictEq (body ≫= resp_status) (Some "completed")
      || strictEq (body ≫= resp_status) (Some "error")
  | Rejected _ => true
  end.

(** The fields of a document that the registry operations do not write. *)
Definition identityOf (d : Document)
    : option string * option string * option string * option string * option string :=
  (id d, task_id d, filename d, upload_time d, processing_status d).

(** *** Notions the registry properties are stated with *)

(** At most one entry of a document collection is active. *)
Definition atMostOneActive (l : list Document) : Prop :=
  length (List.filter isActive l) <= 1.

(** The position the specification calls active after a refresh: that of
    the last document, in list order, whose status is ["completed"]. *)
Fixpoint lastCompletedIndex (arr : list RawDocument) : option nat :=
  match arr with
  | [] => None
  | f :: r =>
      match lastCompletedIndex r with
      | Some i => Some (S i)
      | None => if isCompleted f then Some 0 else None
      end
  end.

(** The three operations of the registry, each with the outcome of the
    backend call it awaits. *)
Inductive Operation : Type :=
| Refresh (response : Outcome (option (list RawDocument)))
| SetActive (index : nat) (response : Outcome unit)
| ToggleIngested (index : nat) (response : Outcome unit).

Definition run (o : Operation) (st : State) : State * list Effect :=
  match o with
  | Refresh response => loadUploadedFiles response st
  | SetActive index response => handleSetActive index response st
  | ToggleIngested index response => handleToggleIngested index response st
  end.

(** The operation goes through: it reaches its [setUploadedFiles]. *)
Definition goesThrough (o : Operation) (st : State) : bool :=
  match o with
  | Refresh _ => true
  | SetActive index (Resolved _) =>
      match uploadedFiles st !! index with
      | Some d => truthy (task_id d)
      | None => false
      end
  | ToggleIngested index (Resolved _) =>
      bool_decide (is_Some (uploadedFiles st !! index))
  | _ => false
  end.

(** States the component can be in: the initial one and those the
    operations lead to. *)
Inductive reachable : State -> Prop :=
| reachable_initial ls : reachable (initial ls)
| reachable_run o st : reachable st -> reachable (fst (run o st)).

Definition processingDoc : RawDocument :=
  mkRaw (Some "t1") None (Some "draft.pdf") None (Some "processing").

Definition completedDoc : RawDocument :=
  mkRaw (Some "t2") None (Some "report.pdf") None (Some "completed").

(** Every active entry is also ingested. *)
Definition activeOnlyIfIngested (l : list Document) : Prop :=
  forall i d, l !! i = Some d -> isActive d = true -> ingested d = true.

(** The first non-empty identifier among [id], [task_id] and [filename];
    the last one when none is. *)
Definition firstIdentifier (f : RawDocument) : option string :=
  if truthy (raw_id f) then raw_id f
  else if truthy (raw_task_id f) then raw_task_id f
  else raw_filename f.

Definition hasIdentifier (f : RawDocument) : bool :=
  truthy (raw_id f) || truthy (raw_task_id f) || truthy (raw_filename f).

Definition isPublish (e : Effect) : bool :=
  match e with Publish _ => true | _ => false end.

Definition isTimer (e : Effect) : bool :=
  match e with SetTimeout _ => true | _ => false end.

Definition isListCall (e : Effect) : bool :=
  match e with Call listDocuments => true | _ => false end.

Definition isStatusCall (e : Effect) : bool :=
  match e with Call (getProcessingStatus _) => true | _ => false end.

(** The interval is still armed after every one of these ticks. *)
Definition allPending (ticks : list (Outcome (option StatusResponse))) : bool :=
  forallb (fun t => negb (terminalTick t)) ticks.

(** The tick reports ["completed"]. *)
Definition completedTick (response : Outcome (option StatusResponse)) : bool :=
  match response with
  | Resolved body => strictEq (body ≫= resp_status) (Some "completed")
  | Rejected _ => false
  end.

(** The progress map after a run of answered ticks that leave the interval
    armed: each one overwrites the file's entry. *)
Definition progressAfter (filename : string) (ticks : list (Outcome (option StatusResponse)))
    (m : gmap string UploadProgressEntry) : gmap string UploadProgressEntry :=
  fold_left (fun acc t =>
               match t with
               | Resolved body => <[filename := polledEntry body]> acc
               | Rejected _ => acc
               end) ticks m.

(** *** Notions the upload properties are stated with *)

Definition unsupportedAlert : Effect :=
  Alert "Unsupported file format. Please upload PDF, DOCX, or TXT files only.".

Definition tooLargeAlert : Effect :=
  Alert "File too large. Maximum size is 200MB.".

Definition MiB200 : Z := 200 * 1024 * 1024.

(** What the rounds of [pollStatuses] that end with a retry perform: the
    status requests of each round, then its 2000 ms timer. *)
Definition pendingEffects (rounds : list (string -> Outcome (option string))) : list Effect :=
  flat_map (fun poll => fst (pollOnce poll DEMO_FILES) ++ [SetTimeout 2000]) rounds.

(** *** Backends used to evaluate the demo ingestion *)

Definition allResolved : string -> Outcome unit := fun _ => Resolved tt.

Definition allCompleted : string -> Outcome (option string) :=
  fun _ => Resolved (Some "completed").

End AdminDashboard.

(** ** Chat sessions: [ChatInterface.jsx] *)

Record Message : Type := mkMessage {
  role : string;
  content : option string;
  timestamp : string;
  confidence : option Q;
  sourcesUsed : option Z;
  isError : bool }.

Record ChatSession : Type := mkSession {
  sessionId : option string;
  createdAt : option string;
  messages : list Message }.

Definition greetingText : string :=
  "Hello! I'm your document assistant. How can I help you today?".

Definition greetingAt (iso : string) : Message :=
  {| role := "assistant"; content := Some greetingText; timestamp := iso;
     confidence := None; sourcesUsed := None; isError := false |}.

Module ChatInterface.

(** [BOT_GREETING] is built once, when the module is loaded, and carries
    that moment as its timestamp. *)
Definition BOT_GREETING (moduleLoadTime : string) : Message := greetingAt moduleLoadTime.

Inductive Effect : Type :=
| Alert (msg : string)
| Confirm (msg : string)
| Call (c : ApiCall)
| Uncaught (msg : string).

Definition isCall (e : Effect) : bool :=
  match e with Call _ => true | _ => false end.

Definition isAlert (e : Effect) : bool :=
  match e with Alert _ => true | _ => false end.

(** The component's own state cells ([chatMessages], [inputMessage],
    [loading], [hasDocument]) and the cells it receives from [App] together
    with their setters ([activeDocument], [chatSessions],
    [activeSessionId]). *)
Record State : Type := mkState {
  chatMessages : list Message;
  inputMessage : string;
  loading : bool;
  hasDocument : bool;
  activeDocument : option AdminDashboard.Document;
  chatSessions : list ChatSession;
  activeSessionId : option string }.

Definition set_chatMessages (l : list Message) (st : State) : State :=
  {| chatMessages := l; inputMessage := inputMessage st; loading := loading st;
     hasDocument := hasDocument st; activeDocument := activeDocument st;
     chatSessions := chatSessions st; activeSessionId := activeSessionId st |}.

Definition set_inputMessage (s : string) (st : State) : State :=
  {| chatMessages := chatMessages st; inputMessage := s; loading := loading st;
     hasDocument := hasDocument st; activeDocument := activeDocument st;
     chatSessions := chatSessions st; activeSessionId := activeSessionId st |}.

Definition set_loading (b : bool) (st : State) : State :=
  {| chatMessages := chatMessages st; inputMessage := inputMessage st; loading := b;
     hasDocument := hasDocument st; activeDocument := activeDocument st;
     chatSessions := chatSessions st; activeSessionId := activeSessionId st |}.

Definition set_chatSessions (l : list ChatSession) (st : State) : State :=
  {| chatMessages := chatMessages st; inputMessage := inputMessage st; loading := loading st;
     hasDocument := hasDocument st; activeDocument := activeDocument st;
     chatSessions := l; activeSessionId := activeSessionId st |}.

Definition set_activeSessionId (s : option string) (st : State) : State :=
  {| chatMessages := chatMessages st; inputMessage := inputMessage st; loading := loading st;
     hasDocument := hasDocument st; activeDocument := activeDocument st;
     chatSessions := chatSessions st; activeSessionId := s |}.

(** [prev.findIndex((s) => s.sessionId === sessionId)]; [None] is [-1]. *)
Fixpoint findIndex (sid : option string) (l : list ChatSession) : option nat :=
  match l with
  | [] => None
  | s :: r => if strictEq (sessionId s) sid then Some 0 else S <$> findIndex sid r
  end.

(** *** [loadChatHistory] *)

(** [resp] is what [apiService.getChatHistory(sessionId)] resolves to: its
    [history] field, absent ([None]) when the body has none.  [now] is the
    [new Date()] taken when the session is not in the collection yet. *)
Definition loadChatHistory (moduleLoadTime : string) (sid : string)
    (resp : Outcome (option (list Message))) (now : string)
    (st : State) : State * list Effect :=
  match resp with
  | Resolved history =>
      let loaded0 := default [] history in
      let loaded :=
        if (length loaded0 =? 0)%nat then [BOT_GREETING moduleLoadTime] else loaded0 in
      let st1 := set_chatMessages loaded st in
      let prev := chatSessions st1 in
      let sessions :=
        match findIndex (Some sid) prev with
        | Some index =>
            let created := default None (createdAt <$> prev !! index) in
            <[index := mkSession (Some sid) created loaded]> prev
        | None => prev ++ [mkSession (Some sid) (Some now) loaded]
        end in
      (set_chatSessions sessions st1, [Call (getChatHistory sid)])
  | Rejected _ =>
      (set_chatMessages [BOT_GREETING moduleLoadTime] st, [Call (getChatHistory sid)])
  end.

(** *** [handleSendMessage] *)

(** What [handleSendMessage] is invoked with: nothing (the Enter key), a
    preset query, or the click event the Send button's [onClick] passes. *)
Inductive SendArg : Type :=
| NoOverride
| OverrideText (text : string)
| OverrideEvent.

Record QueryResponse : Type := mkQueryResponse {
  answer : option string;
  resp_confidence : option Q;
  sources_used : option Z }.

Definition apologyText : string :=
  "Sorry, I encountered an error processing your question. Please try again.".

(** [t1] and [t2] are the ISO timestamps taken for the user message and for
    the assistant message. *)
Definition handleSendMessage (arg : SendArg) (response : Outcome QueryResponse)
    (t1 t2 : string) (st : State) : State * list Effect :=
  match arg with
  | OverrideEvent =>
      (* an event object has no [trim] method *)
      (st, [Uncaught "TypeError"])
  | _ =>
      let messageToSend :=
        match arg with OverrideText s => s | _ => inputMessage st end in
      if negb (nonEmpty (trim messageToSend)) || loading st then (st, [])
      else if negb (hasDocument st) || negb (bool_decide (is_Some (activeDocument st))) then
        (st, [Alert "Please upload and select a document in Admin section to start."])
      else
        let userMessage :=
          {| role := "user"; content := Some messageToSend; timestamp := t1;
             confidence := None; sourcesUsed := None; isError := false |} in
        let st1 := set_chatMessages (chatMessages st ++ [userMessage]) st in
        let st2 := set_loading true (set_inputMessage "" st1) in
        let call :=
          Call (queryDocument messageToSend (activeSessionId st)
                  (activeDocument st ≫= AdminDashboard.task_id)) in
        match response with
        | Resolved r =>
            let assistantMessage :=
              {| role := "assistant"; content := answer r; timestamp := t2;
                 confidence := resp_confidence r; sourcesUsed := sources_used r;
                 isError := false |} in
            let st3 := set_chatMessages (chatMessages st2 ++ [assistantMessage]) st2 in
            let prev := chatSessions st3 in
            let sessions :=
              match findIndex (activeSessionId st) prev with
              | None => prev
              | Some index =>
                  match prev !! index with
                  | Some s =>
                      <[index := mkSession (sessionId s) (createdAt s)
                                   (messages s ++ [userMessage; assistantMessage])]> prev
                  | None => prev
                  end
              end in
            (set_loading false (set_chatSessions sessions st3), [call])
        | Rejected _ =>
            let errorMessage :=
              {| role := "assistant"; content := Some apologyText; timestamp := t2;
                 confidence := None; sourcesUsed := None; isError := true |} in
            (set_loading false (set_chatMessages (chatMessages st2 ++ [errorMessage]) st2),
             [call])
        end
  end.

(** *** [handleClearAllChats] *)

(** [confirmed] is the answer to [window.confirm]. *)
Definition handleClearAllChats (confirmed : bool) (response : Outcome unit)
    (st : State) : State * list Effect :=
  let ask := Confirm "Are you sure you want to delete all chat history?" in
  if negb confirmed then (st, [ask])
  else
    match response with
    | Resolved _ =>
        (set_chatMessages [] (set_activeSessionId None (set_chatSessions [] st)),
         [ask; Call clearAllChatHistory])
    | Rejected _ =>
        (st, [ask; Call clearAllChatHistory;
              Alert "Failed to clear chat history. Please try again."])
    end.

(** *** [handleNewChat], [handleSelectChat] and the effects *)

Definition set_hasDocument (b : bool) (st : State) : State :=
  {| chatMessages := chatMessages st; inputMessage := inputMessage st; loading := loading st;
     hasDocument := b; activeDocument := activeDocument st;
     chatSessions := chatSessions st; activeSessionId := activeSessionId st |}.

(** [nowMs] renders [Date.now()], [nowIso] the [new Date()] of the session. *)
Definition handleNewChat (moduleLoadTime nowMs nowIso : string) (st : State) : State :=
  let newSessionId := String.append "chat_" nowMs in
  let st1 := set_activeSessionId (Some newSessionId) st in
  let st2 := set_chatMessages [BOT_GREETING moduleLoadTime] st1 in
  set_chatSessions
    (mkSession (Some newSessionId) (Some nowIso) [BOT_GREETING moduleLoadTime]
       :: chatSessions st2) st2.

Definition handleSelectChat (sid : option string) (st : State) : State :=
  set_activeSessionId sid st.

(** The effect on [activeDocument]. *)
Definition activeDocumentEffect (moduleLoadTime : string) (st : State) : State :=
  let present := bool_decide (is_Some (activeDocument st)) in
  let st1 := set_hasDocument present st in
  if present && (length (chatMessages st) =? 0)%nat
  then set_chatMessages [BOT_GREETING moduleLoadTime] st1
  else st1.

(** The effect on [activeSessionId]. *)
Definition activeSessionEffect (moduleLoadTime : string)
    (resp : Outcome (option (list Message))) (now : string)
    (st : State) : State * list Effect :=
  match activeSessionId st with
  | Some sid =>
      if truthy (Some sid) then loadChatHistory moduleLoadTime sid resp now st
      else (set_chatMessages [] st, [])
  | None => (set_chatMessages [] st, [])
  end.

(** *** Notions the chat properties are stated with *)

(** The text [handleSendMessage] works on: the override when one is given,
    the input box otherwise; a click event is not a text. *)
Definition messageToSend (arg : SendArg) (st : State) : option string :=
  match arg with
  | NoOverride => Some (inputMessage st)
  | OverrideText s => Some s
  | OverrideEvent => None
  end.

(** A text that is empty or consists of white space only. *)
Fixpoint blank (s : string) : bool :=
  match s with
  | EmptyString => true
  | String c r => isWhiteSpace c && blank r
  end.

(** No active document is selected, as the handler tests it. *)
Definition noActiveDocument (st : State) : bool :=
  negb (hasDocument st) || negb (bool_decide (is_Some (activeDocument st))).

Definition selectDocumentAlert : Effect :=
  Alert "Please upload and select a document in Admin section to start.".

Definition askClearAll : Effect :=
  Confirm "Are you sure you want to delete all chat history?".

Definition clearFailedAlert : Effect :=
  Alert "Failed to clear chat history. Please try again.".

(** The backend has no history for the session: the request fails, or the
    body has no [history], or an empty one. *)
Definition noHistory (resp : Outcome (option (list Message))) : bool :=
  match resp with
  | Resolved (Some (_ :: _)) => false
  | _ => true
  end.

(** The text a call of [handleSendMessage] goes through with, when it does:
    a text that is not blank, no send in flight, a document selected. *)
Definition sendable (arg : SendArg) (st : State) : option string :=
  match messageToSend arg st with
  | Some s => if blank s || loading st || noActiveDocument st then None else Some s
  | None => None
  end.

Definition userMessageAt (text iso : string) : Message :=
  {| role := "user"; content := Some text; timestamp := iso;
     confidence := None; sourcesUsed := None; isError := false |}.

Definition assistantMessageAt (r : QueryResponse) (iso : string) : Message :=
  {| role := "assistant"; content := answer r; timestamp := iso;
     confidence := resp_confidence r; sourcesUsed := sources_used r; isError := false |}.

Definition apologyAt (iso : string) : Message :=
  {| role := "assistant"; content := Some apologyText; timestamp := iso;
     confidence := None; sourcesUsed := None; isError := true |}.

(** An interface ready to send: a document selected and one cached session. *)
Definition readyState : State :=
  mkState [greetingAt "t0"] "What is the summary?" false true
    (Some (AdminDashboard.mkDocument (Some "d1") (Some "d1") (Some "report.pdf") None
             (Some "completed") true true))
    [mkSession (Some "s1") (Some "c1") [greetingAt "t0"]] (Some "s1").

End ChatInterface.

(** ** The API client: [api-service.js] *)

Module ApiService.

(** The methods the [ApiService] class defines, in source order. *)
Definition methods : list string :=
  ["login"; "logout"; "triggerDemoFileIngest"; "uploadDocument";
   "getProcessingStatus"; "listDocuments"; "setActiveDocument";
   "updateIngestedStatus"; "queryDocument"; "getChatHistory";
   "clearChatHistory"; "getSystemStatus"; "getUserProfile"; "healthCheck";
   "clearAllChatHistory"].

(** [typeof apiService[m] === 'function'] for the exported instance. *)
Definition hasMethod (m : string) : bool := existsb (String.eqb m) methods.


(** How a [fetch] ends: the promise rejects, or a response arrives whose
    [ok] flag is false, or one whose [ok] flag is true with a JSON body. *)
Inductive HttpResult (A : Type) : Type :=
| NetworkError (msg : string)
| HttpNotOk
| HttpOk (body : A).
Arguments NetworkError {A} msg.
Arguments HttpNotOk {A}.
Arguments HttpOk {A} body.

(** The instance: its [token] field and the [localStorage] it writes. *)
Record Client : Type := mkClient {
  token : option string;
  storage : gmap string string }.

(** The constructor reads the token back from [localStorage]. *)
Definition construct (ls : gmap string string) : Client :=
  {| token := ls !! "access_token"; storage := ls |}.

(** The body of a login response: [access_token] and the serialized
    [user] ([JSON.stringify(data.user)]); either may be [undefined]. *)
Record LoginData : Type := mkLoginData {
  access_token : option string;
  user_json : option string }.

(** [localStorage.setItem] stores the string form of its argument. *)
Definition storedString (v : option string) : string := default "undefined" v.

(** [login]: the client afterwards and what the promise settles to. *)
Definition login (response : HttpResult LoginData) (c : Client)
    : Client * Outcome LoginData :=
  match response with
  | NetworkError msg => (c, Rejected msg)
  | HttpNotOk => (c, Rejected "Invalid credentials")
  | HttpOk data =>
      ({| token := access_token data;
          storage := <["user" := storedString (user_json data)]>
                       (<["access_token" := storedString (access_token data)]> (storage c)) |},
       Resolved data)
  end.

(** [logout]: whether the request was sent, the client afterwards and what
    the promise settles to.  The [finally] block runs on every path. *)
Definition logout (response : HttpResult unit) (c : Client)
    : bool * Client * Outcome unit :=
  let cleaned :=
    {| token := None;
       storage := delete "user" (delete "access_token" (storage c)) |} in
  if truthy (token c) then
    match response with
    | NetworkError msg => (true, cleaned, Rejected msg)
    | _ => (true, cleaned, Resolved tt)
    end
  else (false, cleaned, Resolved tt).

End ApiService.

(** ** Session bootstrap: [App.jsx] *)

Module App.

Record Identity : Type := mkIdentity {
  username : option string;
  is_admin : bool }.

Inductive Effect : Type :=
| Call (method : string)
| Log (msg : string).

Record State : Type := mkState {
  user : option Identity;
  currentView : string;
  isLoading : bool;
  chatSessions : list ChatSession;
  activeSessionId : option string;
  localStorage : gmap string string }.

(** The component as first rendered. *)
Definition initial (ls : gmap string string) : State :=
  {| user := None; currentView := "chat"; isLoading := true;
     chatSessions := []; activeSessionId := None; localStorage := ls |}.

Definition set_user (u : option Identity) (st : State) : State :=
  {| user := u; currentView := currentView st; isLoading := isLoading st;
     chatSessions := chatSessions st; activeSessionId := activeSessionId st;
     localStorage := localStorage st |}.

Definition set_isLoading (b : bool) (st : State) : State :=
  {| user := user st; currentView := currentView st; isLoading := b;
     chatSessions := chatSessions st; activeSessionId := activeSessionId st;
     localStorage := localStorage st |}.

Definition set_sessions (l : list ChatSession) (a : option string) (st : State) : State :=
  {| user := user st; currentView := currentView st; isLoading := isLoading st;
     chatSessions := l; activeSessionId := a; localStorage := localStorage st |}.

Definition set_localStorage (m : gmap string string) (st : State) : State :=
  {| user := user st; currentView := currentView st; isLoading := isLoading st;
     chatSessions := chatSessions st; activeSessionId := activeSessionId st;
     localStorage := m |}.

(** The [catch] block: [localStorage.clear(); setUser(null)]. *)
Definition onBootError (st : State) : State :=
  set_user None (set_localStorage ∅ st).

(** The session synthesized when the backend has none:
    [chat_${Date.now()}] with the greeting. *)
Definition freshSession (nowMs nowIso : string) : ChatSession :=
  {| sessionId := Some (String.append "chat_" nowMs);
     createdAt := Some nowIso;
     messages := [greetingAt nowIso] |}.

(** [checkSessionAndLoadChats].  [jsonParse] is [JSON.parse] on the stored
    identity ([None] when it throws); [sessionsResp] is what a
    [getChatSessions] request would resolve to (its [sessions] field);
    [nowMs] and [nowIso] render the current time.  The call
    [apiService.getChatSessions()] throws a [TypeError] inside the [try]
    when the instance has no such method. *)
Definition checkSessionAndLoadChats (jsonParse : string -> option Identity)
    (sessionsResp : Outcome (option (list ChatSession))) (nowMs nowIso : string)
    (st : State) : State * list Effect :=
  let storedUser := localStorage st !! "user" in
  let token := localStorage st !! "access_token" in
  let '(st', effs) :=
    if truthy storedUser && truthy token then
      match jsonParse (default "" storedUser) with
      | None => (onBootError st, [Log "Error during session check or chat load:"])
      | Some userJson =>
          let st1 := set_user (Some userJson) st in
          if negb (ApiService.hasMethod "getChatSessions") then
            (onBootError st1, [Log "Error during session check or chat load:"])
          else
            match sessionsResp with
            | Rejected _ =>
                (onBootError st1,
                 [Call "getChatSessions"; Log "Error during session check or chat load:"])
            | Resolved sessions =>
                match sessions with
                | Some (s0 :: rest) =>
                    (set_sessions (s0 :: rest) (sessionId s0) st1, [Call "getChatSessions"])
                | _ =>
                    let s := freshSession nowMs nowIso in
                    (set_sessions [s] (sessionId s) st1, [Call "getChatSessions"])
                end
            end
      end
    else (st, []) in
  (set_isLoading false st', effs).

(** *** View routing and the navigation handlers *)

(** The [App] state together with its [activeDocument] cell. *)
Record Shell : Type := mkShell {
  core : State;
  activeDocument : option AdminDashboard.Document }.

Definition set_currentView (v : string) (st : State) : State :=
  {| user := user st; currentView := v; isLoading := isLoading st;
     chatSessions := chatSessions st; activeSessionId := activeSessionId st;
     localStorage := localStorage st |}.

(** [userData] is the [user] field of the login response, which may be
    [undefined]. *)
Definition handleLogin (userData : option Identity) (sh : Shell) : Shell :=
  {| core := set_currentView "chat" (set_user userData (core sh));
     activeDocument := activeDocument sh |}.

Definition handleLogout (sh : Shell) : Shell :=
  {| core := set_currentView "chat" (set_sessions [] None (set_user None (core sh)));
     activeDocument := None |}.

Definition handleShowAdmin (sh : Shell) : Shell :=
  {| core := set_currentView "admin" (core sh); activeDocument := activeDocument sh |}.

Definition handleBackToChat (sh : Shell) : Shell :=
  {| core := set_currentView "chat" (core sh); activeDocument := activeDocument sh |}.

Definition handleActiveDocumentChange (document : option AdminDashboard.Document)
    (sh : Shell) : Shell :=
  {| core := core sh; activeDocument := document |}.

(** What [App] renders. *)
Inductive View : Type :=
| LoadingScreen
| LoginView
| AdminView
| ChatView.

Definition render (sh : Shell) : View :=
  if isLoading (core sh) then LoadingScreen
  else match user (core sh) with
       | None => LoginView
       | Some _ =>
           if String.eqb (currentView (core sh)) "admin" then AdminView else ChatView
       end.

(** The user-triggered events [App] handles. *)
Inductive UiEvent : Type :=
| LoggedIn (userData : option Identity)
| LoggedOut
| ShowAdmin
| BackToChat
| ActiveDocumentChanged (document : option AdminDashboard.Document).

Definition handle (e : UiEvent) (sh : Shell) : Shell :=
  match e with
  | LoggedIn u => handleLogin u sh
  | LoggedOut => handleLogout sh
  | ShowAdmin => handleShowAdmin sh
  | BackToChat => handleBackToChat sh
  | ActiveDocumentChanged d => handleActiveDocumentChange d sh
  end.

Definition handleAll (events : list UiEvent) (sh : Shell) : Shell :=
  fold_left (fun acc e => handle e acc) events sh.

(** *** A stored login and a backend session, for evaluation *)

Definition storedLogin : gmap string string :=
  <["user" := "{}"]> (<["access_token" := "tok"]> ∅).

Definition oneSession : ChatSession :=
  mkSession (Some "s1") (Some "2024-01-01") [].

End App.

(** ** Demo mode store: [DemoModeProvider] *)

Module DemoModeProvider.

(** The [useState] initializer: the flag is on exactly when the stored
    value is the string ["true"]. *)
Definition init (ls : gmap string string) : bool :=
  bool_decide (ls !! "isDemoMode" = Some "true").

(** The effect on [isDemoMode]: [localStorage.setItem("isDemoMode",
    isDemoMode)] stores the boolean's string form. *)
Definition persist (isDemoMode : bool) (ls : gmap string string) : gmap string string :=
  <["isDemoMode" := if isDemoMode then "true" else "false"]> ls.

End DemoModeProvider.

(** * Properties *)

(** ** The document registry *)

Module Registry.

Import AdminDashboard.

Lemma filter_none_active (l : list Document) :
  (forall i d, l !! i = Some d -> isActive d = false) ->
  List.filter isActive l = [].
Proof.
  induction l as [|a l IH]; intros H; [reflexivity|].
  simpl. rewrite (H 0 a eq_refl).
  apply IH. intros i d Hi. exact (H (S i) d Hi).
Qed.

Lemma single_position_at_most_one (l : list Document) (n : nat) :
  (forall i d, l !! i = Some d -> isActive d = true -> i = n) ->
  atMostOneActive l.
Proof.
  unfold atMostOneActive.
  revert n. induction l as [|a l IH]; intros n H; simpl; [lia|].
  destruct (isActive a) eqn:Ha.
  - assert (Hn : 0 = n) by exact (H 0 a eq_refl Ha).
    rewrite filter_none_active; [simpl; lia|].
    intros i d Hi. destruct (isActive d) eqn:Hd; [|reflexivity].
    specialize (H (S i) d Hi Hd). lia.
  - destruct n as [|n].
    + rewrite filter_none_active; [simpl; lia|].
      intros i d Hi. destruct (isActive d) eqn:Hd; [|reflexivity].
      specialize (H (S i) d Hi Hd). lia.
    + apply (IH n). intros i d Hi Hd.
      specialize (H (S i) d Hi Hd). lia.
Qed.

Lemma strictEq_Some (a : option string) (s : string) :
  strictEq a (Some s) = true <-> a = Some s.
Proof.
  destruct a as [x|]; simpl.
  - rewrite String.eqb_eq. split; congruence.
  - split; discriminate.
Qed.

Lemma lookup_deriveFiles (arr : list RawDocument) (i : nat) :
  deriveFiles arr !! i = deriveDocument arr i <$> arr !! i.
Proof. unfold deriveFiles. apply list_lookup_imap. Qed.

Lemma deriveFiles_active (arr : list RawDocument) (i : nat) (d : Document) :
  deriveFiles arr !! i = Some d -> isActive d = true ->
  S i = length (List.filter isCompleted arr) /\ processing_status d = Some "completed".
Proof.
  rewrite lookup_deriveFiles. intros H Ha.
  destruct (arr !! i) as [f|]; [|discriminate].
  simpl in H. injection H as <-. simpl in *.
  apply andb_true_iff in Ha as [Hi Hc].
  apply Z.eqb_eq in Hi. apply strictEq_Some in Hc.
  split; [lia|exact Hc].
Qed.

Lemma deriveFiles_at_most_one (arr : list RawDocument) :
  atMostOneActive (deriveFiles arr).
Proof.
  apply (single_position_at_most_one _ (length (List.filter isCompleted arr) - 1)).
  intros i d Hi Ha. destruct (deriveFiles_active _ _ _ Hi Ha) as [H _]. lia.
Qed.

Lemma lastCompletedIndex_None (arr : list RawDocument) :
  lastCompletedIndex arr = None <-> forallb (fun f => negb (isCompleted f)) arr = true.
Proof.
  induction arr as [|f r IH]; simpl; [tauto|].
  destruct (lastCompletedIndex r) as [i|].
  - split; [discriminate|]. intros H. apply andb_true_iff in H as [_ H].
    apply IH in H. discriminate.
  - destruct (isCompleted f); simpl.
    + split; discriminate.
    + split; intros _; [apply IH|]; reflexivity.
Qed.

Lemma lastCompletedIndex_app_tail (l rest : list RawDocument) :
  lastCompletedIndex rest = None ->
  lastCompletedIndex (l ++ rest) = lastCompletedIndex l.
Proof.
  intros Hr. induction l as [|f r IH]; simpl; [exact Hr|].
  rewrite IH. reflexivity.
Qed.

Lemma lastCompletedIndex_all (l : list RawDocument) :
  forallb isCompleted l = true ->
  lastCompletedIndex l = match l with [] => None | _ => Some (length l - 1) end.
Proof.
  induction l as [|f r IH]; simpl; [reflexivity|].
  intros H. apply andb_true_iff in H as [Hf Hr].
  rewrite (IH Hr). destruct r as [|g r']; simpl.
  - rewrite Hf. reflexivity.
  - f_equal. lia.
Qed.

Lemma filter_all (l : list RawDocument) :
  forallb isCompleted l = true -> List.filter isCompleted l = l.
Proof.
  induction l as [|f r IH]; simpl; [reflexivity|].
  intros H. apply andb_true_iff in H as [Hf Hr].
  rewrite Hf, (IH Hr). reflexivity.
Qed.

Lemma filter_none (l : list RawDocument) :
  forallb (fun f => negb (isCompleted f)) l = true -> List.filter isCompleted l = [].
Proof.
  induction l as [|f r IH]; simpl; [reflexivity|].
  intros H. apply andb_true_iff in H as [Hf Hr].
  apply negb_true_iff in Hf. rewrite Hf. exact (IH Hr).
Qed.

Lemma completed_first_active (done rest : list RawDocument) (i : nat) :
  forallb isCompleted done = true ->
  forallb (fun f => negb (isCompleted f)) rest = true ->
  lastCompletedIndex (done ++ rest) = Some i ->
  isActive <$> deriveFiles (done ++ rest) !! i = Some true.
Proof.
  intros Hd Hr Hl.
  rewrite lastCompletedIndex_app_tail in Hl by (apply lastCompletedIndex_None; exact Hr).
  rewrite (lastCompletedIndex_all _ Hd) in Hl.
  assert (Hi : S i = length done).
  { destruct done as [|f0 done']; [discriminate|].
    injection Hl as <-. simpl. lia. }
  clear Hl.
  assert (Hlt : i < length done) by lia.
  rewrite lookup_deriveFiles.
  rewrite lookup_app_l by exact Hlt.
  destruct (lookup_lt_is_Some_2 done _ Hlt) as [f Hf].
  rewrite Hf. simpl. f_equal.
  rewrite List.filter_app, (filter_all _ Hd), (filter_none _ Hr), app_nil_r.
  assert (Hc : isCompleted f = true).
  { rewrite forallb_forall in Hd. apply Hd.
    apply list_elem_of_In, list_elem_of_lookup. eauto. }
  rewrite Hc, andb_true_r. apply Z.eqb_eq. lia.
Qed.

Lemma find_isActive_spec (l : list Document) :
  match List.find isActive l with
  | Some d => d ∈ l /\ isActive d = true
  | None => forall i d, l !! i = Some d -> isActive d = false
  end.
Proof.
  destruct (List.find isActive l) as [d|] eqn:Hf.
  - apply List.find_some in Hf as [Hin Ha]. split; [|exact Ha].
    apply list_elem_of_In. exact Hin.
  - intros i d Hi. apply (List.find_none _ _ Hf).
    apply list_elem_of_In, list_elem_of_lookup. eauto.
Qed.

(** C1, as stated, fails: with a document still processing ahead of a
    completed one, the last completed document (position 1) is not marked
    and nothing is published; and with no completed document at all
    [null] is not published either. *)
Lemma refresh_last_completed_counterexample :
  let arr := [processingDoc; completedDoc] in
  let r := loadUploadedFiles (Resolved (Some arr)) (initial ∅) in
  let r0 := loadUploadedFiles (Resolved (Some [processingDoc])) (initial ∅) in
  lastCompletedIndex arr = Some 1 /\
  isActive <$> uploadedFiles (fst r) !! 1 = Some false /\
  List.filter isActive (uploadedFiles (fst r)) = [] /\
  snd r = [Call listDocuments] /\
  lastCompletedIndex [processingDoc] = None /\
  snd r0 = [Call listDocuments].
Proof. repeat split; reflexivity. Qed.

(** C1, amended: [loadUploadedFiles] marks only a document whose status is
    ["completed"], and at most one; none is marked when none is completed;
    when the completed documents all come before the others (so also when
    every document is completed) the marked one is the last completed;
    the marked document, when there is one, is published and nothing is
    published otherwise; [null] is published only when the fetch fails,
    together with an emptied collection. *)
Theorem refresh_marks_and_publishes (documents : option (list RawDocument)) (st : State) :
  let arr := default [] documents in
  let files := uploadedFiles (fst (loadUploadedFiles (Resolved documents) st)) in
  let effs := snd (loadUploadedFiles (Resolved documents) st) in
  (forall i d, files !! i = Some d -> isActive d = true ->
     processing_status d = Some "completed") /\
  atMostOneActive files /\
  (lastCompletedIndex arr = None -> List.filter isActive files = []) /\
  (forall done rest i,
     arr = done ++ rest ->
     forallb isCompleted done = true ->
     forallb (fun f => negb (isCompleted f)) rest = true ->
     lastCompletedIndex arr = Some i ->
     isActive <$> files !! i = Some true) /\
  match List.find isActive files with
  | Some d => d ∈ files /\ isActive d = true /\ effs = [Call listDocuments; Publish (Some d)]
  | None => effs = [Call listDocuments]
  end /\
  (forall msg,
     uploadedFiles (fst (loadUploadedFiles (Rejected msg) st)) = [] /\
     snd (loadUploadedFiles (Rejected msg) st) = [Call listDocuments; Publish None]).
Proof.
  intros arr files effs. subst files effs. simpl. fold arr.
  split; [|split; [|split; [|split; [|split]]]].
  - intros i d Hi Ha. exact (proj2 (deriveFiles_active _ _ _ Hi Ha)).
  - apply deriveFiles_at_most_one.
  - intros Hn. apply filter_none_active. intros i d Hi.
    destruct (isActive d) eqn:Ha; [|reflexivity].
    destruct (deriveFiles_active _ _ _ Hi Ha) as [Hk _].
    apply lastCompletedIndex_None in Hn.
    rewrite (filter_none _ Hn) in Hk. discriminate.
  - intros done rest i -> Hd Hr Hl. exact (completed_first_active _ _ _ Hd Hr Hl).
  - pose proof (find_isActive_spec (deriveFiles arr)) as Hf.
    destruct (List.find isActive (deriveFiles arr)) as [d|].
    + destruct Hf as [Hin Ha]. auto.
    + reflexivity.
  - intros msg. split; reflexivity.
Qed.

Lemma refresh_marks_and_publishes_witness :
  isActive <$>
    uploadedFiles (fst (loadUploadedFiles (Resolved (Some [completedDoc; processingDoc]))
                          (initial ∅))) !! 0 = Some true.
Proof.
  apply (proj1 (proj2 (proj2 (proj2
           (refresh_marks_and_publishes (Some [completedDoc; processingDoc]) (initial ∅)))))
         [completedDoc] [processingDoc] 0); reflexivity.
Defined.

Lemma run_unchanged (o : Operation) (st : State) :
  goesThrough o st = false -> uploadedFiles (fst (run o st)) = uploadedFiles st.
Proof.
  destruct o as [response|index response|index response]; simpl.
  - discriminate.
  - unfold handleSetActive.
    destruct (uploadedFiles st !! index) as [d|]; [|reflexivity].
    destruct response; simpl.
    + intros ->. reflexivity.
    + destruct (truthy (task_id d)); reflexivity.
  - unfold handleToggleIngested.
    destruct (uploadedFiles st !! index) as [d|]; [|reflexivity].
    destruct response; simpl; [|reflexivity].
    discriminate.
Qed.

Lemma run_goesThrough (o : Operation) (st : State) :
  goesThrough o st = true -> atMostOneActive (uploadedFiles (fst (run o st))).
Proof.
  destruct o as [response|index response|index response]; simpl.
  - intros _. destruct response; simpl.
    + apply deriveFiles_at_most_one.
    + unfold atMostOneActive. simpl. lia.
  - unfold handleSetActive.
    destruct response; [|discriminate].
    destruct (uploadedFiles st !! index) as [d|]; [|discriminate].
    intros ->. simpl.
    apply (single_position_at_most_one _ index).
    intros i d' Hi Ha. rewrite list_lookup_imap in Hi.
    destruct (uploadedFiles st !! i) as [e|]; [|discriminate].
    simpl in Hi. injection Hi as <-. simpl in Ha.
    apply Nat.eqb_eq in Ha. exact Ha.
  - unfold handleToggleIngested.
    destruct response; [|discriminate].
    destruct (uploadedFiles st !! index) as [d|]; [|discriminate].
    intros _. simpl.
    apply (single_position_at_most_one _ index).
    intros i d' Hi Ha. rewrite list_lookup_imap in Hi.
    destruct (uploadedFiles st !! i) as [e|]; [|discriminate].
    simpl in Hi. injection Hi as <-.
    destruct (Nat.eqb i index) eqn:He; [apply Nat.eqb_eq in He; exact He|].
    simpl in Ha. discriminate.
Qed.

(** C2: after [loadUploadedFiles], [handleSetActive index] or
    [handleToggleIngested index], at most one entry of [uploadedFiles] is
    active.  An operation that goes through establishes this whatever the
    collection it started from; one that is refused or whose backend call
    fails leaves the collection as it was, so the property carries over from
    the collection the previous operation left. *)
Theorem at_most_one_active_after_operation (o : Operation) (st : State) :
  goesThrough o st = true \/ atMostOneActive (uploadedFiles st) ->
  atMostOneActive (uploadedFiles (fst (run o st))).
Proof.
  intros [H|H].
  - exact (run_goesThrough o st H).
  - destruct (goesThrough o st) eqn:Hg.
    + exact (run_goesThrough o st Hg).
    + rewrite (run_unchanged o st Hg). exact H.
Qed.

Lemma at_most_one_active_after_operation_witness :
  atMostOneActive
    (uploadedFiles
       (fst (run (ToggleIngested 0 (Resolved tt))
               (fst (run (Refresh (Resolved (Some [completedDoc; completedDoc])))
                       (initial ∅)))))).
Proof.
  apply at_most_one_active_after_operation. left. reflexivity.
Defined.

(** Every state the registry can reach has at most one active entry. *)
Lemma reachable_at_most_one_active (st : State) :
  reachable st -> atMostOneActive (uploadedFiles st).
Proof.
  induction 1 as [ls|o st _ IH].
  - unfold atMostOneActive. simpl. lia.
  - destruct (goesThrough o st) eqn:Hg.
    + exact (run_goesThrough o st Hg).
    + rewrite (run_unchanged o st Hg). exact IH.
Qed.

(** C4, as stated, fails: a refresh lists one completed document, which is
    ingested and active; toggling it turns [ingested] to [false] and leaves
    the target not active. *)
Lemma toggle_ingested_off_counterexample :
  let st := fst (loadUploadedFiles (Resolved (Some [completedDoc])) (initial ∅)) in
  let st' := fst (handleToggleIngested 0 (Resolved tt) st) in
  ingested <$> uploadedFiles st !! 0 = Some true /\
  ingested <$> uploadedFiles st' !! 0 = Some false /\
  isActive <$> uploadedFiles st' !! 0 = Some false.
Proof. repeat split; reflexivity. Qed.

(** C4, amended: a successful [handleToggleIngested index] flips the
    target's [ingested] flag and sets the target's [isActive] to the new
    [ingested] value (active when the flip turns [ingested] on, not active
    when it turns it off), and sets [isActive] to [false] on every other
    entry, whose other fields are kept. *)
Theorem toggleIngested_success (index : nat) (doc : Document) (st : State) :
  uploadedFiles st !! index = Some doc ->
  let st' := fst (handleToggleIngested index (Resolved tt) st) in
  uploadedFiles st' !! index =
    Some (with_ingested_isActive (negb (ingested doc)) (negb (ingested doc)) doc) /\
  (forall j, j <> index ->
     uploadedFiles st' !! j = with_isActive false <$> uploadedFiles st !! j) /\
  length (uploadedFiles st') = length (uploadedFiles st).
Proof.
  intros Hd. unfold handleToggleIngested. rewrite Hd. simpl.
  split; [|split].
  - rewrite list_lookup_imap, Hd. simpl. rewrite Nat.eqb_refl. reflexivity.
  - intros j Hj. rewrite list_lookup_imap.
    destruct (uploadedFiles st !! j) as [e|]; [|reflexivity].
    simpl. apply Nat.eqb_neq in Hj. rewrite Hj. reflexivity.
  - apply length_imap.
Qed.

Lemma toggleIngested_success_witness :
  let st := fst (loadUploadedFiles (Resolved (Some [processingDoc; completedDoc])) (initial ∅)) in
  isActive <$> uploadedFiles (fst (handleToggleIngested 0 (Resolved tt) st)) !! 0 = Some true.
Proof.
  intros st.
  pose proof (toggleIngested_success 0
    (deriveDocument [processingDoc; completedDoc] 0 processingDoc) st eq_refl) as [H _].
  rewrite H. reflexivity.
Defined.

End Registry.

(** ** Upload validation *)

Module Upload.

Import AdminDashboard.

Lemma rev_string_twice (s acc acc2 : string) :
  rev_string acc2 (rev_string acc s) = rev_string (String.append s acc2) acc.
Proof.
  revert acc acc2. induction s as [|c r IH]; intros acc acc2; simpl.
  - reflexivity.
  - rewrite IH. reflexivity.
Qed.

Lemma append_empty_r (s : string) : String.append s "" = s.
Proof.
  induction s as [|c r IH]; [reflexivity|].
  change (String c (String.append r "") = String c r). rewrite IH. reflexivity.
Qed.

Lemma splitDot_go_dotless (s cur : string) :
  hasDot s = false -> splitDot_go cur s = [rev_string "" (rev_string cur s)].
Proof.
  revert cur. induction s as [|c r IH]; intros cur H; simpl in *.
  - reflexivity.
  - apply orb_false_iff in H as [Hc Hr]. rewrite Hc. apply IH. exact Hr.
Qed.

Lemma splitDot_dotless (s : string) : hasDot s = false -> splitDot s = [s].
Proof.
  intros H. unfold splitDot. rewrite (splitDot_go_dotless _ _ H).
  rewrite rev_string_twice. simpl. rewrite append_empty_r. reflexivity.
Qed.

Lemma fileExt_dotless (file : File) :
  hasDot (name file) = false ->
  fileExt file = String "." (toLowerCase (name file)).
Proof.
  intros H. unfold fileExt. rewrite (splitDot_dotless _ H). reflexivity.
Qed.

Lemma includes_allowed_dotless (s : string) :
  includes allowedTypes (String "." s) = includes ["pdf"; "docx"; "txt"] s.
Proof. reflexivity. Qed.

(** C6, as stated, fails: a PDF of exactly 200 MiB is not rejected; the
    upload request is sent and the progress map gets an entry. *)
Lemma upload_exactly_200MiB_counterexample :
  let file := mkFile "a.pdf" (200 * 1024 * 1024) in
  let r := handleFileUpload file [] (XhrLoad 200 "OK" (Some (Some "t9"))) (initial ∅) in
  (size file >= 200 * 1024 * 1024)%Z /\
  snd r = [Call (uploadDocument "a.pdf"); MonitorProcessing "t9" "a.pdf"] /\
  uploadProgress (initial ∅) !! "a.pdf" = None /\
  uploadProgress (fst r) !! "a.pdf" = Some (uploadingEntry 0%Q).
Proof.
  split; [simpl; lia|]. split; [reflexivity|]. split; [reflexivity|].
  simpl. apply lookup_insert_eq.
Qed.

(** C6, amended: every file whose size is strictly greater than 200 MiB is
    rejected before any network call: the only effect is one alert and the
    state, the upload-progress map included, is unchanged.  (A file of
    exactly 200 MiB passes the size check.) *)
Theorem upload_over_200MiB_rejected (file : File) (progressEvents : list Q)
    (xhr : XhrResult) (st : State) :
  (size file > MiB200)%Z ->
  let r := handleFileUpload file progressEvents xhr st in
  fst r = st /\
  uploadProgress (fst r) = uploadProgress st /\
  (snd r = [unsupportedAlert] \/ snd r = [tooLargeAlert]) /\
  List.filter isCall (snd r) = [].
Proof.
  intros Hs. unfold handleFileUpload.
  destruct (negb (includes allowedTypes (fileExt file))).
  - simpl. auto.
  - replace (size file >? 200 * 1024 * 1024)%Z with true.
    + simpl. auto.
    + symmetry. apply Z.gtb_lt. unfold MiB200 in Hs. lia.
Qed.

Lemma upload_over_200MiB_rejected_witness :
  let r := handleFileUpload (mkFile "big.pdf" (MiB200 + 1)) []
             (XhrLoad 200 "OK" (Some (Some "t9"))) (initial ∅) in
  fst r = initial ∅ /\
  uploadProgress (fst r) = uploadProgress (initial ∅) /\
  (snd r = [unsupportedAlert] \/ snd r = [tooLargeAlert]) /\
  List.filter isCall (snd r) = [].
Proof.
  apply (upload_over_200MiB_rejected (mkFile "big.pdf" (MiB200 + 1))).
  simpl. unfold MiB200. lia.
Defined.

(** C9, as stated, fails: the dotless name ["PDF"] is none of ["pdf"],
    ["docx"], ["txt"], yet it passes the extension check and is uploaded. *)
Lemma dotless_uppercase_counterexample :
  let file := mkFile "PDF" 10 in
  let r := handleFileUpload file [] (XhrLoad 200 "OK" (Some (Some "t9"))) (initial ∅) in
  hasDot (name file) = false /\
  includes ["pdf"; "docx"; "txt"] (name file) = false /\
  fileExt file = ".pdf" /\
  snd r = [Call (uploadDocument "PDF"); MonitorProcessing "t9" "PDF"].
Proof. repeat split; reflexivity. Qed.

(** C9, amended: for a filename with no dot the derived extension is ['.']
    prepended to the whole lower-cased name, so a dotless file passes the
    extension check exactly when its name, lower-cased, is ["pdf"],
    ["docx"] or ["txt"] (those names in any letter case); such a file, when
    its size does not exceed 200 MiB, is uploaded, and every other dotless
    filename is rejected with the unsupported-format alert, without a
    network call or state change. *)
Theorem dotless_filename_validation (file : File) (progressEvents : list Q)
    (xhr : XhrResult) (st : State) :
  hasDot (name file) = false ->
  let r := handleFileUpload file progressEvents xhr st in
  fileExt file = String "." (toLowerCase (name file)) /\
  includes allowedTypes (fileExt file) = includes ["pdf"; "docx"; "txt"] (toLowerCase (name file)) /\
  (if includes ["pdf"; "docx"; "txt"] (toLowerCase (name file))
   then if (size file >? MiB200)%Z
        then r = (st, [tooLargeAlert])
        else List.filter isCall (snd r) = [Call (uploadDocument (name file))]
   else r = (st, [unsupportedAlert])).
Proof.
  intros H r. subst r.
  pose proof (fileExt_dotless file H) as He.
  split; [exact He|]. split; [rewrite He; apply includes_allowed_dotless|].
  unfold handleFileUpload. rewrite He, includes_allowed_dotless.
  destruct (includes ["pdf"; "docx"; "txt"] (toLowerCase (name file))); simpl; [|reflexivity].
  change (200 * 1024 * 1024)%Z with MiB200.
  destruct (size file >? MiB200)%Z; [reflexivity|].
  destruct (uploadDocument_result xhr); reflexivity.
Qed.

Lemma dotless_filename_validation_witness :
  List.filter isCall
    (snd (handleFileUpload (mkFile "docx" 1024) [] (XhrLoad 200 "OK" (Some (Some "t9")))
            (initial ∅)))
  = [Call (uploadDocument "docx")].
Proof.
  exact (proj2 (proj2 (dotless_filename_validation (mkFile "docx" 1024) []
                         (XhrLoad 200 "OK" (Some (Some "t9"))) (initial ∅) eq_refl))).
Defined.

End Upload.

(** ** Demo ingestion *)

Module DemoIngestion.

Import AdminDashboard.

Lemma loadUploadedFiles_keeps_flags (response : Outcome (option (list RawDocument)))
    (st : State) :
  demoIngested (fst (loadUploadedFiles response st)) = demoIngested st /\
  localStorage (fst (loadUploadedFiles response st)) = localStorage st /\
  demoIngestState (fst (loadUploadedFiles response st)) = demoIngestState st.
Proof. destruct response; repeat split; reflexivity. Qed.

(** No run of [pollStatuses] writes the [demoIngested] cell or
    [localStorage], however many rounds it takes. *)
Lemma pollStatuses_keeps_flags (rounds : list (string -> Outcome (option string)))
    (listResponse : Outcome (option (list RawDocument))) (st : State) :
  demoIngested (fst (pollStatuses rounds listResponse st)) = demoIngested st /\
  localStorage (fst (pollStatuses rounds listResponse st)) = localStorage st.
Proof.
  induction rounds as [|poll later IH]; [split; reflexivity|].
  cbn [pollStatuses].
  destruct (pollOnce poll DEMO_FILES) as [effs [| |msg]].
  - destruct (loadUploadedFiles listResponse _) as [st2 effs2] eqn:Hl.
    pose proof (loadUploadedFiles_keeps_flags listResponse
                  (set_demoIngestState
                     (mkDemo (Some "done") ["✅ All demo documents processed successfully!"])
                     st)) as [H1 [H2 _]].
    rewrite Hl in H1, H2. simpl in *. split; assumption.
  - destruct (pollStatuses later listResponse st) as [st2 effs2]. exact IH.
  - split; reflexivity.
Qed.

(** C8 on the code: when both demo ingests are accepted and the first
    status poll reports ["completed"] for every demo document, the banner
    turns to ["done"] and the document list is refreshed, but the
    [demoIngested] cell and [localStorage] are left exactly as they were:
    the done-flag is neither set nor persisted. *)
Theorem demo_ingestion_done_flag_not_persisted
    (trigger : string -> Outcome unit) (poll : string -> Outcome (option string))
    (later : list (string -> Outcome (option string)))
    (listResponse : Outcome (option (list RawDocument))) (st : State) :
  (forall tid, trigger tid = Resolved tt) ->
  (forall tid, poll tid = Resolved (Some "completed")) ->
  let r := startDemoIngestion trigger (poll :: later) listResponse st in
  demo_status (demoIngestState (fst r)) = Some "done" /\
  uploadedFiles (fst r) = uploadedFiles (fst (loadUploadedFiles listResponse st)) /\
  List.filter isCall (snd r) =
    [Call (triggerDemoFileIngest "demo_graph"); Call (triggerDemoFileIngest "demo_data");
     Call (getProcessingStatus "demo_graph"); Call (getProcessingStatus "demo_data");
     Call listDocuments] /\
  demoIngested (fst r) = demoIngested st /\
  localStorage (fst r) = localStorage st.
Proof.
  intros Ht Hp. unfold startDemoIngestion. simpl. rewrite !Ht. simpl. rewrite !Hp. simpl.
  destruct listResponse; simpl; repeat split; try reflexivity.
  destruct (List.find isActive _); reflexivity.
Qed.

(** Evaluated from a first visit with demo mode on and an empty
    [localStorage]: once ingestion has completed, the key
    ["demoFilesIngested"] is still absent, so the next application session
    mounts with [demoIngested = false] and triggers ingestion again. *)
Lemma demo_ingestion_done_flag_not_persisted_witness :
  let r := startDemoIngestion allResolved [allCompleted] (Resolved (Some [])) (initial ∅) in
  let next := loadDemoIngestedFlag (initial (localStorage (fst r))) in
  (demoIngested (fst r) = demoIngested (initial ∅) /\
   localStorage (fst r) = localStorage (initial ∅)) /\
  localStorage (fst r) !! "demoFilesIngested" = None /\
  demoIngested next = false /\
  hd_error (snd (demoModeEffect true allResolved [allCompleted] (Resolved (Some [])) next))
    = Some (Call (triggerDemoFileIngest "demo_graph")).
Proof.
  split; [|repeat split; reflexivity].
  exact (proj2 (proj2 (proj2
           (demo_ingestion_done_flag_not_persisted allResolved allCompleted []
              (Resolved (Some [])) (initial ∅) (fun _ => eq_refl) (fun _ => eq_refl))))).
Defined.

End DemoIngestion.

(** ** Session bootstrap *)

Module Bootstrap.

Import App.

Lemma getChatSessions_undefined : ApiService.hasMethod "getChatSessions" = false.
Proof. reflexivity. Qed.

Lemma truthy_Some (s : string) : s <> "" -> truthy (Some s) = true.
Proof.
  intros H. simpl. apply negb_true_iff. apply String.eqb_neq. exact H.
Qed.

(** C3 on the code: with a stored identity and token both present, whatever
    the backend would answer, [checkSessionAndLoadChats] issues no
    chat-session request ([ApiService] defines no [getChatSessions]), adopts
    no session, synthesizes none and selects none; it ends logged out with
    [localStorage] cleared. *)
Theorem boot_with_identity_adopts_no_session
    (jsonParse : string -> option Identity)
    (sessionsResp : Outcome (option (list ChatSession))) (nowMs nowIso : string)
    (ls : gmap string string) (storedUser token : string) :
  ls !! "user" = Some storedUser -> storedUser <> "" ->
  ls !! "access_token" = Some token -> token <> "" ->
  let r := checkSessionAndLoadChats jsonParse sessionsResp nowMs nowIso (initial ls) in
  chatSessions (fst r) = [] /\
  activeSessionId (fst r) = None /\
  user (fst r) = None /\
  localStorage (fst r) = ∅ /\
  isLoading (fst r) = false /\
  snd r = [Log "Error during session check or chat load:"].
Proof.
  intros Hu Hu' Ht Ht'. unfold checkSessionAndLoadChats.
  rewrite getChatSessions_undefined. simpl.
  rewrite Hu, Ht, (truthy_Some _ Hu'), (truthy_Some _ Ht'). simpl.
  destruct (jsonParse storedUser) as [userJson|]; simpl; repeat split; reflexivity.
Qed.

Lemma boot_with_identity_adopts_no_session_witness :
  chatSessions
    (fst (checkSessionAndLoadChats (fun _ => Some (mkIdentity (Some "user") false))
            (Resolved (Some [oneSession])) "1700000000000" "2023-11-14T22:13:20.000Z"
            (initial storedLogin))) = [].
Proof.
  refine (proj1 (boot_with_identity_adopts_no_session _ _ _ _ storedLogin "{}" "tok"
                   _ _ _ _)).
  - reflexivity.
  - discriminate.
  - reflexivity.
  - discriminate.
Defined.

End Bootstrap.

(** ** Chat sessions *)

Module Chat.

Import ChatInterface.

Lemma trimEnd_keeps_head (c : ascii) (r : string) :
  isWhiteSpace c = false -> nonEmpty (trimEnd (String c r)) = true.
Proof.
  intros H. simpl. destruct (trimEnd r); [rewrite H|]; reflexivity.
Qed.

Lemma trim_blank (s : string) : negb (nonEmpty (trim s)) = blank s.
Proof.
  unfold trim. induction s as [|c r IH]; [reflexivity|].
  cbn [trimStart blank]. destruct (isWhiteSpace c) eqn:Hc.
  - exact IH.
  - rewrite (trimEnd_keeps_head c r Hc). reflexivity.
Qed.

(** C7, as stated, fails in its alert part: on a fresh interface with no
    active document, pressing Enter on an empty input box returns silently;
    the user is not alerted. *)
Lemma send_without_document_no_alert_counterexample :
  let st := mkState [] "" false false None [] None in
  let r := handleSendMessage NoOverride (Rejected "unused") "t1" "t2" st in
  noActiveDocument st = true /\
  messageToSend NoOverride st = Some "" /\
  List.filter isAlert (snd r) = [] /\
  r = (st, []).
Proof. repeat split; reflexivity. Qed.

(** C7, amended: when the text is empty or white space only, or when no
    active document is selected, [handleSendMessage] issues no network call
    and leaves the message list (indeed the whole state) unchanged.  When it
    is invoked with a text (the Enter key, which takes the input box, or a
    preset query) and no active document is selected, it alerts the user
    exactly when the text is not blank and no send is in flight, and
    performs no effect at all on a blank text or while a send is in
    flight.  Nothing is stated about alerts for the invocation by the Send
    button's click, which passes the click event in place of a text. *)
Theorem sendMessage_guards (arg : SendArg) (response : Outcome QueryResponse)
    (t1 t2 : string) (st : State) :
  (exists s, messageToSend arg st = Some s /\ blank s = true)
  \/ noActiveDocument st = true ->
  let r := handleSendMessage arg response t1 t2 st in
  fst r = st /\
  chatMessages (fst r) = chatMessages st /\
  List.filter isCall (snd r) = [] /\
  (forall s, messageToSend arg st = Some s ->
     snd r = if blank s || loading st then [] else [selectDocumentAlert]).
Proof.
  intros H r. subst r.
  assert (Hgen : forall s,
            messageToSend arg st = Some s ->
            handleSendMessage arg response t1 t2 st =
              (st, if blank s || loading st then [] else [selectDocumentAlert])).
  { intros s Hs. unfold handleSendMessage.
    assert (Hm : match arg with OverrideText s0 => s0 | _ => inputMessage st end = s).
    { destruct arg; simpl in Hs; congruence. }
    destruct arg; try discriminate; rewrite Hm, trim_blank;
      (destruct (blank s || loading st) eqn:Hb; [reflexivity|]);
      (destruct H as [[s' [Hs' Hbl]]|Hn];
       [ rewrite Hs in Hs'; injection Hs' as <-; rewrite Hbl in Hb; discriminate
       | unfold noActiveDocument in Hn; rewrite Hn; reflexivity ]). }
  destruct (messageToSend arg st) as [s|] eqn:Hs.
  - rewrite (Hgen s eq_refl). simpl.
    split; [reflexivity|]. split; [reflexivity|]. split.
    + destruct (blank s || loading st); reflexivity.
    + intros s0 Hs0. injection Hs0 as <-. reflexivity.
  - destruct arg; try discriminate. simpl.
    split; [reflexivity|]. split; [reflexivity|]. split; [reflexivity|].
    intros s0 Hs0. discriminate.
Qed.

Lemma sendMessage_guards_witness :
  let st := mkState [] "What is the summary?" false false None [] None in
  snd (handleSendMessage NoOverride (Rejected "unused") "t1" "t2" st) = [selectDocumentAlert].
Proof.
  intros st.
  refine (proj2 (proj2 (proj2
            (sendMessage_guards NoOverride (Rejected "unused") "t1" "t2" st _)))
            "What is the summary?" eq_refl).
  right. reflexivity.
Defined.

(** C5: when the backend clear-all call fails, [handleClearAllChats] leaves
    the session list, the active-session pointer and the rest of the state
    exactly unchanged and alerts the user; the local state is cleared only
    on the path where the user confirmed and the backend call, made first,
    succeeded. *)
Theorem clearAll_failure_keeps_state (confirmed : bool) (response : Outcome unit)
    (st : State) :
  let r := handleClearAllChats confirmed response st in
  match response with
  | Rejected _ =>
      fst r = st /\
      chatSessions (fst r) = chatSessions st /\
      activeSessionId (fst r) = activeSessionId st /\
      snd r = (if confirmed
               then [askClearAll; Call clearAllChatHistory; clearFailedAlert]
               else [askClearAll])
  | Resolved _ =>
      if confirmed
      then chatSessions (fst r) = [] /\ activeSessionId (fst r) = None /\
           chatMessages (fst r) = [] /\
           snd r = [askClearAll; Call clearAllChatHistory]
      else fst r = st /\ snd r = [askClearAll]
  end.
Proof.
  destruct response, confirmed; simpl; repeat split; reflexivity.
Qed.

(** C10: when fetching a session's history fails, the displayed message
    list becomes exactly the single greeting [BOT_GREETING], and the session
    collection and the active-session pointer are left unchanged: nothing
    is inserted or replaced. *)
Theorem loadChatHistory_failure (moduleLoadTime sid msg now : string) (st : State) :
  let r := loadChatHistory moduleLoadTime sid (Rejected msg) now st in
  chatMessages (fst r) = [BOT_GREETING moduleLoadTime] /\
  content (BOT_GREETING moduleLoadTime) = Some greetingText /\
  role (BOT_GREETING moduleLoadTime) = "assistant" /\
  chatSessions (fst r) = chatSessions st /\
  activeSessionId (fst r) = activeSessionId st /\
  snd r = [Call (getChatHistory sid)].
Proof. repeat split; reflexivity. Qed.

End Chat.

(** ** The registry operations, further properties *)

Module RegistryOps.

Import AdminDashboard.

Lemma filter_single_active (l : list Document) (n : nat) (x : Document) :
  l !! n = Some x -> isActive x = true ->
  (forall i d, l !! i = Some d -> isActive d = true -> i = n) ->
  List.filter isActive l = [x].
Proof.
  revert n. induction l as [|a l IH]; intros n Hx Ha H; [discriminate|].
  destruct n as [|n]; simpl in *.
  - injection Hx as ->. rewrite Ha. f_equal.
    apply Registry.filter_none_active. intros i d Hi.
    destruct (isActive d) eqn:Hd; [|reflexivity].
    specialize (H (S i) d Hi Hd). discriminate.
  - destruct (isActive a) eqn:Haa.
    + specialize (H 0 a eq_refl Haa). discriminate.
    + apply (IH n Hx Ha). intros i d Hi Hd.
      specialize (H (S i) d Hi Hd). lia.
Qed.

Lemma lookup_setActive (idx i : nat) (l : list Document) :
  imap (fun j d => with_isActive (Nat.eqb j idx) d) l !! i
  = with_isActive (Nat.eqb i idx) <$> l !! i.
Proof. rewrite list_lookup_imap. reflexivity. Qed.

Lemma lookup_toggle (idx i : nat) (g : bool) (l : list Document) :
  imap (fun j d => if Nat.eqb j idx then with_ingested_isActive g g d
                   else with_isActive false d) l !! i
  = (fun d => if Nat.eqb i idx then with_ingested_isActive g g d
              else with_isActive false d) <$> l !! i.
Proof. rewrite list_lookup_imap. reflexivity. Qed.

(** X1: [handleSetActive] and [handleToggleIngested] never add, remove,
    reorder or rename a document, whatever the index and the backend's
    answer: the identifying fields of the collection are kept, position by
    position; [handleSetActive] also keeps every [ingested] flag. *)
Theorem flag_operations_keep_documents (index : nat) (response : Outcome unit) (st : State) :
  identityOf <$> uploadedFiles (fst (handleSetActive index response st))
    = identityOf <$> uploadedFiles st /\
  ingested <$> uploadedFiles (fst (handleSetActive index response st))
    = ingested <$> uploadedFiles st /\
  identityOf <$> uploadedFiles (fst (handleToggleIngested index response st))
    = identityOf <$> uploadedFiles st.
Proof.
  unfold handleSetActive, handleToggleIngested.
  destruct (uploadedFiles st !! index) as [doc|] eqn:Hd; [|repeat split; reflexivity].
  destruct response as [v|msg]; simpl.
  - split; [|split].
    + destruct (truthy (task_id doc)); simpl; [|reflexivity].
      apply list_eq. intros i. rewrite !list_lookup_fmap, lookup_setActive.
      destruct (uploadedFiles st !! i); reflexivity.
    + destruct (truthy (task_id doc)); simpl; [|reflexivity].
      apply list_eq. intros i. rewrite !list_lookup_fmap, lookup_setActive.
      destruct (uploadedFiles st !! i); reflexivity.
    + apply list_eq. intros i. rewrite !list_lookup_fmap, lookup_toggle.
      destruct (uploadedFiles st !! i); simpl; [|reflexivity].
      destruct (Nat.eqb i index); reflexivity.
  - destruct (truthy (task_id doc)); repeat split; reflexivity.
Qed.

(** X2: a successful [handleSetActive index] leaves exactly one active
    entry, the target; it requests the change under the target's [task_id]
    and publishes the target as it was before the update. *)
Theorem setActive_success (index : nat) (doc : Document) (st : State) :
  uploadedFiles st !! index = Some doc ->
  truthy (task_id doc) = true ->
  let r := handleSetActive index (Resolved tt) st in
  List.filter isActive (uploadedFiles (fst r)) = [with_isActive true doc] /\
  (forall i d, uploadedFiles (fst r) !! i = Some d -> isActive d = Nat.eqb i index) /\
  snd r = [Call (setActiveDocument (task_id doc)); Publish (Some doc)].
Proof.
  intros Hd Ht. unfold handleSetActive. rewrite Hd, Ht. simpl.
  assert (Hall : forall i d,
            imap (fun j e => with_isActive (Nat.eqb j index) e) (uploadedFiles st) !! i = Some d ->
            isActive d = Nat.eqb i index).
  { intros i d Hi. rewrite lookup_setActive in Hi.
    destruct (uploadedFiles st !! i); [|discriminate].
    injection Hi as <-. reflexivity. }
  split; [|split].
  - apply (filter_single_active _ index).
    + rewrite lookup_setActive, Hd. simpl. rewrite Nat.eqb_refl. reflexivity.
    + reflexivity.
    + intros i d Hi Ha. rewrite (Hall i d Hi) in Ha. apply Nat.eqb_eq. exact Ha.
  - exact Hall.
  - unfold orElse. rewrite Ht. reflexivity.
Qed.

Lemma setActive_success_witness :
  let st := fst (loadUploadedFiles (Resolved (Some [completedDoc; processingDoc])) (initial ∅)) in
  List.filter isActive (uploadedFiles (fst (handleSetActive 1 (Resolved tt) st)))
  = [with_isActive true (deriveDocument [completedDoc; processingDoc] 1 processingDoc)].
Proof.
  intros st.
  exact (proj1 (setActive_success 1
                  (deriveDocument [completedDoc; processingDoc] 1 processingDoc) st
                  eq_refl eq_refl)).
Defined.

(** A [handleSetActive] or [handleToggleIngested] that does not go
    through (no such entry, an entry without identifier, or a rejected
    backend call) leaves the whole component state unchanged and publishes
    nothing to the active-document consumer. *)
Theorem refused_operation_changes_nothing (o : Operation) (st : State) :
  goesThrough o st = false ->
  fst (run o st) = st /\
  List.filter isPublish (snd (run o st)) = [].
Proof.
  destruct o as [response|index response|index response]; simpl.
  - discriminate.
  - unfold handleSetActive.
    destruct (uploadedFiles st !! index) as [d|]; [|split; reflexivity].
    destruct response; simpl.
    + intros ->. split; reflexivity.
    + destruct (truthy (task_id d)); split; reflexivity.
  - unfold handleToggleIngested.
    destruct (uploadedFiles st !! index) as [d|]; [|split; reflexivity].
    destruct response; simpl; [discriminate|].
    split; reflexivity.
Qed.

Lemma refused_operation_changes_nothing_witness :
  fst (run (SetActive 3 (Resolved tt)) (initial ∅)) = initial ∅.
Proof.
  exact (proj1 (refused_operation_changes_nothing
                  (SetActive 3 (Resolved tt)) (initial ∅) eq_refl)).
Defined.

Lemma derived_task_id (arr : list RawDocument) (i : nat) (f : RawDocument) :
  task_id (deriveDocument arr i f) = firstIdentifier f /\
  truthy (task_id (deriveDocument arr i f)) = hasIdentifier f.
Proof.
  unfold firstIdentifier, hasIdentifier. simpl. unfold orElse.
  destruct (truthy (raw_id f)) eqn:H1.
  - rewrite !H1. split; reflexivity.
  - destruct (truthy (raw_task_id f)) eqn:H2.
    + rewrite !H2. split; reflexivity.
    + destruct (truthy (raw_filename f)); split; reflexivity.
Qed.

Lemma setActive_calls (index : nat) (response : Outcome unit) (st : State) :
  List.filter isCall (snd (handleSetActive index response st)) =
    match uploadedFiles st !! index with
    | Some d => if truthy (task_id d) then [Call (setActiveDocument (task_id d))] else []
    | None => []
    end.
Proof.
  unfold handleSetActive.
  destruct (uploadedFiles st !! index) as [d|]; [|reflexivity].
  unfold orElse. destruct (truthy (task_id d)); [|reflexivity].
  destruct response; reflexivity.
Qed.




(** X4: on a freshly loaded list, [handleToggleIngested] addresses a
    document by its [id], or else by its [filename]; the backend [task_id]
    is never used, so a document listed without [id] but with a [task_id] is
    addressed by [task_id] when made active and by [filename] when its
    ingested flag is toggled.  The status sent is [true] exactly when the
    document is not completed. *)
Theorem toggle_after_refresh (arr : list RawDocument) (i : nat) (f : RawDocument)
    (response : Outcome unit) (st : State) :
  arr !! i = Some f ->
  let st1 := fst (loadUploadedFiles (Resolved (Some arr)) st) in
  List.filter isCall (snd (handleToggleIngested i response st1)) =
    [Call (updateIngestedStatus
             (if truthy (raw_id f) then raw_id f else raw_filename f)
             (negb (isCompleted f)))] /\
  (truthy (raw_id f) = false -> truthy (raw_task_id f) = true ->
   List.filter isCall (snd (handleSetActive i response st1)) =
     [Call (setActiveDocument (raw_task_id f))]).
Proof.
  intros Hf st1.
  assert (Hl : uploadedFiles st1 !! i = Some (deriveDocument arr i f)).
  { change (uploadedFiles st1) with (deriveFiles arr).
    rewrite Registry.lookup_deriveFiles, Hf. reflexivity. }
  split.
  - unfold handleToggleIngested. rewrite Hl.
    cbn [id filename ingested deriveDocument]. unfold orElse.
    destruct response; reflexivity.
  - intros H1 H2.
    destruct (derived_task_id arr i f) as [E1 E2].
    rewrite setActive_calls, Hl, E2, E1.
    unfold hasIdentifier, firstIdentifier. rewrite H1, H2. reflexivity.
Qed.

Lemma toggle_after_refresh_witness :
  List.filter isCall
    (snd (handleToggleIngested 0 (Resolved tt)
            (fst (loadUploadedFiles
                    (Resolved (Some [mkRaw None (Some "task-7") (Some "a.pdf") None None]))
                    (initial ∅)))))
  = [Call (updateIngestedStatus (Some "a.pdf") true)].
Proof.
  exact (proj1 (toggle_after_refresh
                  [mkRaw None (Some "task-7") (Some "a.pdf") None None] 0
                  (mkRaw None (Some "task-7") (Some "a.pdf") None None)
                  (Resolved tt) (initial ∅) eq_refl)).
Defined.

(** X5: toggling the same entry twice, both calls succeeding, restores
    every [ingested] flag of the collection, but not the active marks:
    afterwards the target is active exactly when it was ingested to begin
    with, and no other entry is active. *)
Theorem toggle_twice (index : nat) (doc : Document) (st : State) :
  uploadedFiles st !! index = Some doc ->
  let st1 := fst (handleToggleIngested index (Resolved tt) st) in
  let st2 := fst (handleToggleIngested index (Resolved tt) st1) in
  ingested <$> uploadedFiles st2 = ingested <$> uploadedFiles st /\
  (forall i d, uploadedFiles st2 !! i = Some d ->
     isActive d = Nat.eqb i index && ingested doc).
Proof.
  intros Hd st1 st2.
  assert (H1 : uploadedFiles st1 =
               imap (fun j d => if Nat.eqb j index
                                then with_ingested_isActive (negb (ingested doc))
                                       (negb (ingested doc)) d
                                else with_isActive false d) (uploadedFiles st)).
  { subst st1. unfold handleToggleIngested. rewrite Hd. reflexivity. }
  assert (Hd1 : uploadedFiles st1 !! index =
                Some (with_ingested_isActive (negb (ingested doc)) (negb (ingested doc)) doc)).
  { rewrite H1, lookup_toggle, Hd. simpl. rewrite Nat.eqb_refl. reflexivity. }
  assert (H2 : uploadedFiles st2 =
               imap (fun j d => if Nat.eqb j index
                                then with_ingested_isActive (ingested doc) (ingested doc) d
                                else with_isActive false d) (uploadedFiles st1)).
  { subst st2. unfold handleToggleIngested. rewrite Hd1. simpl.
    rewrite negb_involutive. reflexivity. }
  split.
  - apply list_eq. intros i.
    rewrite H2, H1, !list_lookup_fmap, !lookup_toggle.
    destruct (uploadedFiles st !! i) as [e|] eqn:He; simpl; [|reflexivity].
    destruct (Nat.eqb i index) eqn:Hi; simpl; [|reflexivity].
    apply Nat.eqb_eq in Hi. subst i. rewrite Hd in He. injection He as ->. reflexivity.
  - intros i d Hi. rewrite H2, H1, !lookup_toggle in Hi.
    destruct (uploadedFiles st !! i) as [e|]; simpl in Hi; [|discriminate].
    injection Hi as <-. destruct (Nat.eqb i index); reflexivity.
Qed.

Lemma toggle_twice_witness :
  let st := fst (loadUploadedFiles (Resolved (Some [completedDoc; processingDoc])) (initial ∅)) in
  let st1 := fst (handleToggleIngested 1 (Resolved tt) st) in
  let st2 := fst (handleToggleIngested 1 (Resolved tt) st1) in
  ingested <$> uploadedFiles st2 = ingested <$> uploadedFiles st.
Proof.
  intros st st1 st2.
  exact (proj1 (toggle_twice 1
                  (deriveDocument [completedDoc; processingDoc] 1 processingDoc) st eq_refl)).
Defined.

Lemma deriveFiles_ingested (arr : list RawDocument) (i : nat) (d : Document) :
  deriveFiles arr !! i = Some d ->
  (ingested d = true <-> processing_status d = Some "completed") /\
  (isActive d = true -> ingested d = true).
Proof.
  rewrite Registry.lookup_deriveFiles. intros H.
  destruct (arr !! i) as [f|]; [|discriminate].
  injection H as <-. simpl. split.
  - apply Registry.strictEq_Some.
  - intros Ha. apply andb_true_iff in Ha as [_ Hc]. exact Hc.
Qed.

(** X6: after [loadUploadedFiles] an entry is ingested exactly when its
    status is ["completed"], and every active entry is ingested.
    [handleToggleIngested] keeps the latter: when it goes through it holds
    whatever the collection was, and otherwise the collection is as
    before. *)
Theorem active_only_if_ingested :
  (forall documents st i d,
     uploadedFiles (fst (loadUploadedFiles (Resolved documents) st)) !! i = Some d ->
     (ingested d = true <-> processing_status d = Some "completed")) /\
  (forall response st,
     activeOnlyIfIngested (uploadedFiles (fst (loadUploadedFiles response st)))) /\
  (forall index response st,
     goesThrough (ToggleIngested index response) st = true
     \/ activeOnlyIfIngested (uploadedFiles st) ->
     activeOnlyIfIngested (uploadedFiles (fst (handleToggleIngested index response st)))).
Proof.
  split; [|split].
  - intros documents st i d H. exact (proj1 (deriveFiles_ingested _ _ _ H)).
  - intros [documents|msg] st i d H.
    + exact (proj2 (deriveFiles_ingested _ _ _ H)).
    + discriminate.
  - intros index response st H.
    unfold handleToggleIngested. simpl in H.
    destruct (uploadedFiles st !! index) as [doc|] eqn:Hd.
    + destruct response as [v|msg]; simpl.
      * intros i d Hi Ha. rewrite lookup_toggle in Hi.
        destruct (uploadedFiles st !! i) as [e|]; [|discriminate].
        injection Hi as <-. destruct (Nat.eqb i index); simpl in *; [exact Ha|discriminate].
      * destruct H as [H|H]; [discriminate|exact H].
    + destruct H as [H|H]; [|exact H].
      destruct response; discriminate.
Qed.

Lemma active_only_if_ingested_witness :
  activeOnlyIfIngested
    (uploadedFiles
       (fst (handleToggleIngested 0 (Resolved tt)
               (fst (handleSetActive 0 (Resolved tt)
                       (fst (loadUploadedFiles (Resolved (Some [processingDoc])) (initial ∅)))))))).
Proof.
  apply (proj2 (proj2 active_only_if_ingested)). left. reflexivity.
Defined.

End RegistryOps.

(** ** The upload request, further properties *)

Module UploadFlow.

Import AdminDashboard.

Lemma pop_splitDot_go (base ext cur : string) :
  hasDot ext = false ->
  pop (splitDot_go cur (String.append base (String "." ext))) = Some ext.
Proof.
  intros He. revert cur. induction base as [|c b IH]; intros cur.
  - change (String.append "" (String "." ext)) with (String "." ext).
    cbn [splitDot_go]. change (Ascii.eqb "." ".") with true. cbv iota.
    rewrite (Upload.splitDot_go_dotless ext "" He), Upload.rev_string_twice.
    cbn [rev_string]. rewrite Upload.append_empty_r. reflexivity.
  - change (String.append (String c b) (String "." ext))
      with (String c (String.append b (String "." ext))).
    cbn [splitDot_go]. destruct (Ascii.eqb c "."); [|apply IH].
    unfold pop in *. rewrite last_cons, IH. reflexivity.
Qed.

(** X7: for a filename [base.ext] whose last piece [ext] contains no dot,
    the extension check looks at [ext] alone, lower-cased: the file passes
    exactly when that is ["pdf"], ["docx"] or ["txt"], whatever [base] is,
    and is otherwise rejected with the unsupported-format alert and no
    other effect. *)
Theorem extension_is_last_piece (base ext : string) (bytes : Z) (progressEvents : list Q)
    (xhr : XhrResult) (st : State) :
  hasDot ext = false ->
  let file := mkFile (String.append base (String "." ext)) bytes in
  fileExt file = String "." (toLowerCase ext) /\
  includes allowedTypes (fileExt file) = includes ["pdf"; "docx"; "txt"] (toLowerCase ext) /\
  (includes ["pdf"; "docx"; "txt"] (toLowerCase ext) = false ->
   handleFileUpload file progressEvents xhr st = (st, [unsupportedAlert])).
Proof.
  intros He file.
  assert (Hx : fileExt file = String "." (toLowerCase ext)).
  { unfold fileExt, splitDot. subst file. cbn [name].
    rewrite (pop_splitDot_go base ext "" He). reflexivity. }
  split; [exact Hx|]. split.
  - rewrite Hx. apply Upload.includes_allowed_dotless.
  - intros Hn. unfold handleFileUpload.
    rewrite Hx, Upload.includes_allowed_dotless, Hn. reflexivity.
Qed.

Lemma extension_is_last_piece_witness :
  handleFileUpload (mkFile "report.pdf.exe" 10) [] XhrError (initial ∅)
  = (initial ∅, [unsupportedAlert]).
Proof.
  exact (proj2 (proj2 (extension_is_last_piece "report.pdf" "exe" 10 [] XhrError
                         (initial ∅) eq_refl)) eq_refl).
Defined.

(** X8: the promise of [ApiService.uploadDocument] resolves only for an HTTP
    status 200 whose JSON body carries a non-empty [task_id], and then to
    that identifier: processing is never monitored under an empty task
    identifier. *)
Theorem upload_resolves_with_task_id (xhr : XhrResult) (taskId : string) :
  uploadDocument_result xhr = Resolved taskId <->
  taskId <> "" /\ exists statusText, xhr = XhrLoad 200 statusText (Some (Some taskId)).
Proof.
  split.
  - destruct xhr as [httpStatus statusText json|]; simpl; [|discriminate].
    destruct (httpStatus =? 200)%Z eqn:Hs; [|discriminate].
    apply Z.eqb_eq in Hs. subst httpStatus.
    destruct json as [[tid|]|]; simpl; try discriminate.
    destruct (String.eqb tid "") eqn:Ht; simpl; [discriminate|].
    intros H. injection H as <-. apply String.eqb_neq in Ht. eauto.
  - intros [Hne [statusText ->]]. simpl.
    apply String.eqb_neq in Hne. rewrite Hne. reflexivity.
Qed.

Lemma upload_resolves_with_task_id_witness :
  uploadDocument_result (XhrLoad 200 "OK" (Some (Some "t9"))) = Resolved "t9".
Proof.
  apply (proj2 (upload_resolves_with_task_id (XhrLoad 200 "OK" (Some (Some "t9"))) "t9")).
  split; [discriminate|eexists; reflexivity].
Defined.

Lemma fold_progress_lookup (n : string) (progressEvents : list Q)
    (m : gmap string UploadProgressEntry) (p0 : Q) :
  m !! n = Some (uploadingEntry p0) ->
  fold_left (fun acc p => <[n := uploadingEntry p]> acc) progressEvents m !! n
  = Some (uploadingEntry (default p0 (last progressEvents))).
Proof.
  revert m p0. induction progressEvents as [|p ps IH]; intros m p0 Hm; [exact Hm|].
  cbn [fold_left]. rewrite (IH _ p) by apply lookup_insert_eq.
  rewrite last_cons. destruct (last ps); reflexivity.
Qed.

Lemma fold_progress_other (n other : string) (progressEvents : list Q)
    (m : gmap string UploadProgressEntry) :
  other <> n ->
  fold_left (fun acc p => <[n := uploadingEntry p]> acc) progressEvents m !! other
  = m !! other.
Proof.
  intros Hne. revert m. induction progressEvents as [|p ps IH]; intros m; [reflexivity|].
  cbn [fold_left]. rewrite IH. apply lookup_insert_ne. congruence.
Qed.

(** X9: [handleFileUpload] writes nothing but the progress entry keyed by
    the file's own name: every other file's entry, the document list and
    the demo and storage cells are as before, for every file, progress
    report and way the request ends. *)
Theorem upload_touches_only_its_entry (file : File) (progressEvents : list Q)
    (xhr : XhrResult) (st : State) (other : string) :
  other <> name file ->
  let st' := fst (handleFileUpload file progressEvents xhr st) in
  uploadProgress st' !! other = uploadProgress st !! other /\
  uploadedFiles st' = uploadedFiles st /\
  demoIngestState st' = demoIngestState st /\
  demoIngested st' = demoIngested st /\
  localStorage st' = localStorage st.
Proof.
  intros Hne. unfold handleFileUpload.
  destruct (negb (includes allowedTypes (fileExt file))); [repeat split; reflexivity|].
  destruct (size file >? 200 * 1024 * 1024)%Z; [repeat split; reflexivity|].
  destruct (uploadDocument_result xhr) as [tid|msg]; simpl;
    (split; [|repeat split; reflexivity]).
  - rewrite (fold_progress_other _ _ _ _ Hne). apply lookup_insert_ne. congruence.
  - rewrite lookup_insert_ne by congruence.
    rewrite (fold_progress_other _ _ _ _ Hne). apply lookup_insert_ne. congruence.
Qed.

Lemma upload_touches_only_its_entry_witness :
  uploadProgress
    (fst (handleFileUpload (mkFile "a.pdf" 10) [] XhrError
            (set_uploadProgress (<["b.txt" := errorEntry "x"]> ∅) (initial ∅))))
    !! "b.txt"
  = uploadProgress (set_uploadProgress (<["b.txt" := errorEntry "x"]> ∅) (initial ∅))
      !! "b.txt".
Proof.
  refine (proj1 (upload_touches_only_its_entry (mkFile "a.pdf" 10) [] XhrError _ "b.txt" _)).
  discriminate.
Defined.

(** X10: for a file that passes validation, the entry under its name ends
    as ["uploading"] at the last reported percentage (0 when none was
    reported) with processing monitored under the returned task identifier
    when the request succeeds, and as ["error"] at 0 with the failure's
    message and no monitoring when it fails; the request is sent exactly
    once either way.  The message of a response whose status is not 200 is
    ["Upload failed: "] followed by the status number and the status text,
    and that of a network error is ["Upload failed due to network error"]. *)
Theorem accepted_upload_outcome (file : File) (progressEvents : list Q)
    (xhr : XhrResult) (st : State) :
  includes allowedTypes (fileExt file) = true ->
  (size file <= MiB200)%Z ->
  let r := handleFileUpload file progressEvents xhr st in
  match uploadDocument_result xhr with
  | Resolved taskId =>
      uploadProgress (fst r) !! name file
        = Some (uploadingEntry (default 0%Q (last progressEvents))) /\
      snd r = [Call (uploadDocument (name file)); MonitorProcessing taskId (name file)]
  | Rejected msg =>
      uploadProgress (fst r) !! name file = Some (errorEntry msg) /\
      snd r = [Call (uploadDocument (name file))]
  end /\
  (forall httpStatus statusText json,
     xhr = XhrLoad httpStatus statusText json -> httpStatus <> 200%Z ->
     uploadProgress (fst r) !! name file
     = Some (errorEntry
               (String.append "Upload failed: "
                  (String.append (statusString httpStatus)
                     (String.append " " statusText))))) /\
  (xhr = XhrError ->
   uploadProgress (fst r) !! name file
   = Some (errorEntry "Upload failed due to network error")).
Proof.
  intros Hi Hs r.
  assert (Hm : match uploadDocument_result xhr with
               | Resolved taskId =>
                   uploadProgress (fst r) !! name file
                     = Some (uploadingEntry (default 0%Q (last progressEvents))) /\
                   snd r = [Call (uploadDocument (name file));
                            MonitorProcessing taskId (name file)]
               | Rejected msg =>
                   uploadProgress (fst r) !! name file = Some (errorEntry msg) /\
                   snd r = [Call (uploadDocument (name file))]
               end).
  { subst r. unfold handleFileUpload. rewrite Hi. cbn [negb].
    replace (size file >? 200 * 1024 * 1024)%Z with false
      by (symmetry; rewrite Z.gtb_ltb; apply Z.ltb_ge; unfold MiB200 in Hs; lia).
    destruct (uploadDocument_result xhr) as [tid|msg]; simpl; split; try reflexivity.
    - apply fold_progress_lookup, lookup_insert_eq.
    - apply lookup_insert_eq. }
  split; [exact Hm|]. split.
  - intros httpStatus statusText json -> Hne.
    cbn [uploadDocument_result] in Hm.
    apply Z.eqb_neq in Hne. rewrite Hne in Hm. exact (proj1 Hm).
  - intros ->. exact (proj1 Hm).
Qed.

Lemma accepted_upload_outcome_witness :
  uploadProgress
    (fst (handleFileUpload (mkFile "a.pdf" 10) [(1 # 2)%Q; (75 # 1)%Q]
            (XhrLoad 503 "Service Unavailable" None) (initial ∅))) !! "a.pdf"
  = Some (errorEntry "Upload failed: 503 Service Unavailable").
Proof.
  refine (proj1 (proj2 (accepted_upload_outcome (mkFile "a.pdf" 10) [(1 # 2)%Q; (75 # 1)%Q]
                          (XhrLoad 503 "Service Unavailable" None) (initial ∅) eq_refl _))
            503%Z "Service Unavailable" None eq_refl _).
  - unfold MiB200. simpl. lia.
  - discriminate.
Defined.

End UploadFlow.

(** ** Processing monitor *)

Module Monitor.

Import AdminDashboard.

Lemma set_uploadProgress_same (st : State) : set_uploadProgress (uploadProgress st) st = st.
Proof. destruct st; reflexivity. Qed.

Lemma loadUploadedFiles_keeps_progress (response : Outcome (option (list RawDocument)))
    (st : State) :
  uploadProgress (fst (loadUploadedFiles response st)) = uploadProgress st.
Proof. destruct response; reflexivity. Qed.

Lemma loadUploadedFiles_one_list_call (response : Outcome (option (list RawDocument)))
    (st : State) :
  List.filter isListCall (snd (loadUploadedFiles response st)) = [Call listDocuments] /\
  List.filter isTimer (snd (loadUploadedFiles response st)) = [] /\
  List.filter isStatusCall (snd (loadUploadedFiles response st)) = [].
Proof.
  destruct response as [documents|msg]; simpl; [|repeat split; reflexivity].
  destruct (List.find isActive (deriveFiles (default [] documents)));
    repeat split; reflexivity.
Qed.

Lemma monitorTick_pending (taskId filename : string)
    (t : Outcome (option StatusResponse))
    (listResponse : Outcome (option (list RawDocument))) (st : State) :
  terminalTick t = false ->
  monitorTick taskId filename t listResponse st =
    (set_uploadProgress (progressAfter filename [t] (uploadProgress st)) st,
     [Call (getProcessingStatus taskId)], true).
Proof.
  destruct t as [body|msg]; simpl; [|discriminate].
  intros H. apply orb_false_iff in H as [H1 H2].
  unfold monitorTick. rewrite H1, H2. reflexivity.
Qed.

Lemma monitor_pending_prefix (taskId filename : string)
    (pre rest : list (Outcome (option StatusResponse)))
    (listResponse : Outcome (option (list RawDocument))) (st : State) :
  allPending pre = true ->
  monitorProcessing taskId filename (pre ++ rest) listResponse st =
    (fst (monitorProcessing taskId filename rest listResponse
            (set_uploadProgress (progressAfter filename pre (uploadProgress st)) st)),
     repeat (Call (getProcessingStatus taskId)) (length pre)
     ++ snd (monitorProcessing taskId filename rest listResponse
               (set_uploadProgress (progressAfter filename pre (uploadProgress st)) st))).
Proof.
  revert st. induction pre as [|t pre IH]; intros st Hp.
  - cbn [progressAfter fold_left app length repeat].
    rewrite set_uploadProgress_same.
    destruct (monitorProcessing taskId filename rest listResponse st); reflexivity.
  - cbn [allPending forallb] in Hp. apply andb_true_iff in Hp as [Ht Hp].
    apply negb_true_iff in Ht.
    cbn [app monitorProcessing].
    rewrite (monitorTick_pending _ _ _ _ _ Ht).
    rewrite (IH _ Hp). reflexivity.
Qed.

(** X11: the status polling of [monitorProcessing] stops at the first tick
    that reports ["completed"] or ["error"] or whose request fails: what
    the backend would answer afterwards makes no difference, and exactly
    one status request has been sent per tick up to and including that
    one. *)
Theorem monitor_stops_at_terminal (taskId filename : string)
    (pre post : list (Outcome (option StatusResponse)))
    (t : Outcome (option StatusResponse))
    (listResponse : Outcome (option (list RawDocument))) (st : State) :
  allPending pre = true ->
  terminalTick t = true ->
  monitorProcessing taskId filename (pre ++ t :: post) listResponse st
    = monitorProcessing taskId filename (pre ++ [t]) listResponse st /\
  length (List.filter isStatusCall
            (snd (monitorProcessing taskId filename (pre ++ t :: post) listResponse st)))
    = S (length pre).
Proof.
  intros Hp Ht.
  rewrite !(monitor_pending_prefix _ _ pre _ _ _ Hp).
  set (st1 := set_uploadProgress (progressAfter filename pre (uploadProgress st)) st).
  assert (Hstep : forall later,
            monitorProcessing taskId filename (t :: later) listResponse st1 =
            (fst (fst (monitorTick taskId filename t listResponse st1)),
             snd (fst (monitorTick taskId filename t listResponse st1))) /\
            length (List.filter isStatusCall
                      (snd (fst (monitorTick taskId filename t listResponse st1)))) = 1).
  { intros later. cbn [monitorProcessing]. unfold monitorTick.
    destruct t as [body|msg]; [|split; reflexivity].
    simpl in Ht.
    destruct (strictEq (body ≫= resp_status) (Some "completed")).
    - destruct (loadUploadedFiles listResponse _) as [st2 effs] eqn:Hl.
      split; [reflexivity|]. cbn [fst snd List.filter isStatusCall].
      rewrite List.filter_app.
      pose proof (loadUploadedFiles_one_list_call listResponse
                    (set_uploadProgress
                       (<[filename := polledEntry body]> (uploadProgress st1)) st1))
        as [_ [_ Hs]].
      rewrite Hl in Hs. cbn [snd] in Hs. rewrite Hs. reflexivity.
    - simpl in Ht. rewrite Ht. split; reflexivity. }
  split.
  - rewrite (proj1 (Hstep post)), (proj1 (Hstep [])). reflexivity.
  - rewrite (proj1 (Hstep post)). cbn [snd].
    rewrite List.filter_app, length_app, (proj2 (Hstep post)).
    assert (Hr : forall n,
              List.filter isStatusCall (repeat (Call (getProcessingStatus taskId)) n)
              = repeat (Call (getProcessingStatus taskId)) n).
    { induction n as [|n IHn]; [reflexivity|]. simpl. rewrite IHn. reflexivity. }
    rewrite Hr, repeat_length. lia.
Qed.

Lemma monitor_stops_at_terminal_witness :
  monitorProcessing "t9" "a.pdf"
    ([Resolved (Some (mkStatus (Some "processing") None None))]
       ++ Rejected "timeout" :: [Resolved (Some (mkStatus (Some "completed") None None))])
    (Resolved None) (initial ∅)
  = monitorProcessing "t9" "a.pdf"
      ([Resolved (Some (mkStatus (Some "processing") None None))] ++ [Rejected "timeout"])
      (Resolved None) (initial ∅).
Proof.
  exact (proj1 (monitor_stops_at_terminal "t9" "a.pdf"
                  [Resolved (Some (mkStatus (Some "processing") None None))]
                  [Resolved (Some (mkStatus (Some "completed") None None))]
                  (Rejected "timeout") (Resolved None) (initial ∅) eq_refl eq_refl)).
Defined.

Lemma delete_progressAfter (filename : string)
    (ticks : list (Outcome (option StatusResponse))) (m : gmap string UploadProgressEntry) :
  delete filename (progressAfter filename ticks m) = delete filename m.
Proof.
  revert m. induction ticks as [|t ticks IH]; intros m; [reflexivity|].
  unfold progressAfter in *. cbn [fold_left]. rewrite IH.
  destruct t; [apply delete_insert_eq|reflexivity].
Qed.

Lemma status_calls_only (taskId : string) (n : nat) :
  List.filter isListCall (repeat (Call (getProcessingStatus taskId)) n) = [] /\
  List.filter isTimer (repeat (Call (getProcessingStatus taskId)) n) = [].
Proof. induction n as [|n [IH1 IH2]]; split; simpl; auto. Qed.

Lemma loadUploadedFiles_files (response : Outcome (option (list RawDocument)))
    (st1 st2 : State) :
  uploadedFiles (fst (loadUploadedFiles response st1))
  = uploadedFiles (fst (loadUploadedFiles response st2)).
Proof. destruct response; reflexivity. Qed.

(** X12: when the first terminal tick reports ["completed"], the document
    list is refreshed exactly once, the file's entry shows the reported
    status, and one 3000 ms timer is armed; once that timer has fired the
    progress map is the one the monitor started from without the file's
    entry. *)
Theorem monitor_completed (taskId filename : string)
    (pre post : list (Outcome (option StatusResponse))) (body : option StatusResponse)
    (listResponse : Outcome (option (list RawDocument))) (st : State) :
  allPending pre = true ->
  body ≫= resp_status = Some "completed" ->
  let r := monitorProcessing taskId filename (pre ++ Resolved body :: post) listResponse st in
  List.filter isListCall (snd r) = [Call listDocuments] /\
  List.filter isTimer (snd r) = [SetTimeout 3000] /\
  uploadedFiles (fst r) = uploadedFiles (fst (loadUploadedFiles listResponse st)) /\
  uploadProgress (fst r) !! filename = Some (polledEntry body) /\
  uploadProgress (removeProgressEntry filename (fst r)) = delete filename (uploadProgress st).
Proof.
  intros Hp Hc r. subst r.
  rewrite (monitor_pending_prefix _ _ pre _ _ _ Hp).
  set (st1 := set_uploadProgress (progressAfter filename pre (uploadProgress st)) st).
  cbn [monitorProcessing]. unfold monitorTick. rewrite Hc.
  change (strictEq (Some "completed") (Some "completed")) with true. cbv iota.
  set (st2 := set_uploadProgress (<[filename := polledEntry body]> (uploadProgress st1)) st1).
  pose proof (loadUploadedFiles_one_list_call listResponse st2) as [Hl [Ht _]].
  pose proof (loadUploadedFiles_keeps_progress listResponse st2) as Hk.
  pose proof (loadUploadedFiles_files listResponse st2 st) as Hf.
  destruct (loadUploadedFiles listResponse st2) as [st3 effs].
  cbn [fst snd] in *.
  destruct (status_calls_only taskId (length pre)) as [H1 H2].
  split; [|split; [|split; [|split]]].
  - rewrite List.filter_app, H1. cbn [app List.filter isListCall].
    rewrite List.filter_app, Hl. reflexivity.
  - rewrite List.filter_app, H2. cbn [app List.filter isTimer].
    rewrite List.filter_app, Ht. reflexivity.
  - exact Hf.
  - rewrite Hk. apply lookup_insert_eq.
  - unfold removeProgressEntry. cbn [uploadProgress set_uploadProgress].
    rewrite Hk. subst st2 st1. cbn [uploadProgress set_uploadProgress].
    rewrite delete_insert_eq. apply delete_progressAfter.
Qed.

Lemma monitor_completed_witness :
  List.filter isListCall
    (snd (monitorProcessing "t9" "a.pdf"
            ([Resolved (Some (mkStatus (Some "processing") None None))]
               ++ Resolved (Some (mkStatus (Some "completed") None None)) :: [])
            (Resolved None) (initial ∅)))
  = [Call listDocuments].
Proof.
  exact (proj1 (monitor_completed "t9" "a.pdf"
                  [Resolved (Some (mkStatus (Some "processing") None None))] []
                  (Some (mkStatus (Some "completed") None None))
                  (Resolved None) (initial ∅) eq_refl eq_refl)).
Defined.

(** X13: when the first terminal tick reports ["error"] or its request
    fails, the document list is neither refreshed nor changed and no
    removal timer is armed: the file's entry stays, with status ["error"]
    (and, for a failed request, progress 0 and the text
    ["Processing failed"]). *)
Theorem monitor_failed (taskId filename : string)
    (pre post : list (Outcome (option StatusResponse)))
    (t : Outcome (option StatusResponse))
    (listResponse : Outcome (option (list RawDocument))) (st : State) :
  allPending pre = true ->
  terminalTick t = true ->
  completedTick t = false ->
  let r := monitorProcessing taskId filename (pre ++ t :: post) listResponse st in
  List.filter isListCall (snd r) = [] /\
  List.filter isTimer (snd r) = [] /\
  uploadedFiles (fst r) = uploadedFiles st /\
  uploadProgress (fst r) !! filename =
    Some (match t with
          | Resolved body => polledEntry body
          | Rejected _ => errorEntry "Processing failed"
          end) /\
  (status <$> uploadProgress (fst r) !! filename) = Some "error".
Proof.
  intros Hp Ht Hc r. subst r.
  rewrite (monitor_pending_prefix _ _ pre _ _ _ Hp).
  cbn [monitorProcessing]. unfold monitorTick.
  destruct (status_calls_only taskId (length pre)) as [H1 H2].
  destruct t as [body|msg]; cbn [terminalTick completedTick] in Ht, Hc.
  - rewrite Hc in *. cbn [orb] in Ht. rewrite Ht. cbn [fst snd].
    rewrite !List.filter_app, H1, H2.
    cbn [uploadProgress uploadedFiles set_uploadProgress].
    repeat split; try reflexivity.
    + apply lookup_insert_eq.
    + rewrite lookup_insert_eq. cbn [fmap option_fmap option_map polledEntry status].
      apply Registry.strictEq_Some in Ht. rewrite Ht. reflexivity.
  - cbn [fst snd]. rewrite !List.filter_app, H1, H2.
    cbn [uploadProgress uploadedFiles set_uploadProgress].
    repeat split; try reflexivity.
    + apply lookup_insert_eq.
    + rewrite lookup_insert_eq. reflexivity.
Qed.

Lemma monitor_failed_witness :
  status <$>
    uploadProgress
      (fst (monitorProcessing "t9" "a.pdf"
              ([] ++ Resolved (Some (mkStatus (Some "error") None (Some "bad file"))) :: [])
              (Resolved None) (initial ∅))) !! "a.pdf"
  = Some "error".
Proof.
  exact (proj2 (proj2 (proj2 (proj2
           (monitor_failed "t9" "a.pdf" [] []
              (Resolved (Some (mkStatus (Some "error") None (Some "bad file"))))
              (Resolved None) (initial ∅) eq_refl eq_refl eq_refl))))).
Defined.

Lemma monitorTick_frame (taskId filename : string)
    (t : Outcome (option StatusResponse))
    (listResponse : Outcome (option (list RawDocument))) (st : State) :
  let st1 := fst (fst (monitorTick taskId filename t listResponse st)) in
  delete filename (uploadProgress st1) = delete filename (uploadProgress st) /\
  demoIngested st1 = demoIngested st /\
  localStorage st1 = localStorage st.
Proof.
  unfold monitorTick. destruct t as [body|msg]; cbn [fst].
  - destruct (strictEq (body ≫= resp_status) (Some "completed")).
    + set (st2 := set_uploadProgress _ st).
      pose proof (loadUploadedFiles_keeps_progress listResponse st2) as Hk.
      pose proof (DemoIngestion.loadUploadedFiles_keeps_flags listResponse st2) as [Hd [Hs _]].
      destruct (loadUploadedFiles listResponse st2) as [st3 effs]. cbn [fst] in *.
      rewrite Hk, Hd, Hs. subst st2. cbn [uploadProgress set_uploadProgress].
      rewrite delete_insert_eq. repeat split; reflexivity.
    + destruct (strictEq (body ≫= resp_status) (Some "error")); cbn [fst];
        cbn [uploadProgress set_uploadProgress]; rewrite delete_insert_eq;
        repeat split; reflexivity.
  - cbn [uploadProgress set_uploadProgress]. rewrite delete_insert_eq.
    repeat split; reflexivity.
Qed.

(** X14: whatever the backend answers and however long it is polled,
    [monitorProcessing] writes no progress entry but the one keyed by its own
    file name, and leaves the demo flag and [localStorage] alone. *)
Theorem monitor_touches_only_its_entry (taskId filename : string)
    (ticks : list (Outcome (option StatusResponse)))
    (listResponse : Outcome (option (list RawDocument))) (st : State) :
  let st' := fst (monitorProcessing taskId filename ticks listResponse st) in
  delete filename (uploadProgress st') = delete filename (uploadProgress st) /\
  (forall other, other <> filename ->
     uploadProgress st' !! other = uploadProgress st !! other) /\
  demoIngested st' = demoIngested st /\
  localStorage st' = localStorage st.
Proof.
  cbv zeta.
  assert (H : delete filename
                (uploadProgress (fst (monitorProcessing taskId filename ticks listResponse st)))
              = delete filename (uploadProgress st) /\
              demoIngested (fst (monitorProcessing taskId filename ticks listResponse st))
              = demoIngested st /\
              localStorage (fst (monitorProcessing taskId filename ticks listResponse st))
              = localStorage st).
  { revert st. induction ticks as [|t ticks IH]; intros st; [repeat split; reflexivity|].
    cbn [monitorProcessing].
    pose proof (monitorTick_frame taskId filename t listResponse st) as Hf.
    destruct (monitorTick taskId filename t listResponse st) as [[st1 effs] running].
    cbn [fst] in Hf. destruct Hf as [H1 [H2 H3]].
    destruct running; [|cbn [fst]; auto].
    specialize (IH st1).
    destruct (monitorProcessing taskId filename ticks listResponse st1) as [st2 effs2].
    cbn [fst] in *. destruct IH as [I1 [I2 I3]].
    rewrite I1, I2, I3. auto. }
  destruct H as [H1 [H2 H3]].
  split; [exact H1|]. split; [|split; assumption].
  intros other Hne.
  rewrite <- (lookup_delete_ne _ filename other) by congruence.
  rewrite H1. apply lookup_delete_ne. congruence.
Qed.

Lemma monitor_touches_only_its_entry_witness :
  uploadProgress
    (fst (monitorProcessing "t9" "a.pdf" [Rejected "timeout"] (Resolved None)
            (set_uploadProgress (<["b.txt" := uploadingEntry 0%Q]> ∅) (initial ∅))))
    !! "b.txt"
  = uploadProgress (set_uploadProgress (<["b.txt" := uploadingEntry 0%Q]> ∅) (initial ∅))
      !! "b.txt".
Proof.
  refine (proj1 (proj2 (monitor_touches_only_its_entry "t9" "a.pdf" [Rejected "timeout"]
                          (Resolved None) _)) "b.txt" _).
  discriminate.
Defined.

End Monitor.

(** ** Demo ingestion, further properties *)

Module DemoFlow.

Import AdminDashboard.

(** X15: when a demo-ingest request is rejected, [startDemoIngestion] stops
    there: the banner turns to ["error"], no status is polled, no retry is
    scheduled and the document list is neither refreshed nor changed; a
    rejection of the first request means the second is never sent. *)
Theorem demo_trigger_failure (trigger : string -> Outcome unit)
    (rounds : list (string -> Outcome (option string)))
    (listResponse : Outcome (option (list RawDocument))) (st : State) (msg : string) :
  trigger "demo_graph" = Rejected msg
  \/ (trigger "demo_graph" = Resolved tt /\ trigger "demo_data" = Rejected msg) ->
  let r := startDemoIngestion trigger rounds listResponse st in
  demo_status (demoIngestState (fst r)) = Some "error" /\
  uploadedFiles (fst r) = uploadedFiles st /\
  List.filter isStatusCall (snd r) = [] /\
  List.filter isListCall (snd r) = [] /\
  List.filter isTimer (snd r) = [] /\
  snd r = match trigger "demo_graph" with
          | Resolved _ => [Call (triggerDemoFileIngest "demo_graph");
                           Call (triggerDemoFileIngest "demo_data")]
          | Rejected _ => [Call (triggerDemoFileIngest "demo_graph")]
          end.
Proof.
  intros H. unfold startDemoIngestion. cbn [DEMO_FILES triggerAll].
  destruct H as [H|[H1 H2]].
  - rewrite H. repeat split; reflexivity.
  - rewrite H1, H2. repeat split; reflexivity.
Qed.

Lemma demo_trigger_failure_witness :
  demo_status
    (demoIngestState
       (fst (startDemoIngestion (fun _ => Rejected "500") [allCompleted] (Resolved None)
               (initial ∅))))
  = Some "error".
Proof.
  refine (proj1 (demo_trigger_failure (fun _ => Rejected "500") [allCompleted]
                   (Resolved None) (initial ∅) "500" _)).
  left. reflexivity.
Defined.

Lemma pollOnce_effects (poll : string -> Outcome (option string)) :
  List.filter isTimer (fst (pollOnce poll DEMO_FILES)) = [] /\
  List.filter isListCall (fst (pollOnce poll DEMO_FILES)) = [].
Proof.
  cbn [DEMO_FILES pollOnce].
  destruct (poll "demo_graph") as [s1|]; [|split; reflexivity].
  destruct (negb (strictEq s1 (Some "completed"))); [split; reflexivity|].
  destruct (poll "demo_data") as [s2|]; [|split; reflexivity].
  destruct (negb (strictEq s2 (Some "completed"))); split; reflexivity.
Qed.

Lemma pendingEffects_filters (rounds : list (string -> Outcome (option string))) :
  List.filter isTimer (pendingEffects rounds) = repeat (SetTimeout 2000) (length rounds) /\
  List.filter isListCall (pendingEffects rounds) = [].
Proof.
  induction rounds as [|poll rounds [IH1 IH2]]; [split; reflexivity|].
  unfold pendingEffects in *. cbn [flat_map length repeat].
  destruct (pollOnce_effects poll) as [Q1 Q2].
  rewrite !List.filter_app, Q1, Q2, IH1, IH2. split; reflexivity.
Qed.

Lemma pollStatuses_pending_prefix (pending rest : list (string -> Outcome (option string)))
    (listResponse : Outcome (option (list RawDocument))) (st : State) :
  Forall (fun poll => snd (pollOnce poll DEMO_FILES) = NotDone) pending ->
  pollStatuses (pending ++ rest) listResponse st =
    (fst (pollStatuses rest listResponse st),
     pendingEffects pending ++ snd (pollStatuses rest listResponse st)).
Proof.
  intros H. induction H as [|poll pending Hp _ IH].
  - cbn [app pendingEffects flat_map].
    destruct (pollStatuses rest listResponse st); reflexivity.
  - change ((poll :: pending) ++ rest) with (poll :: (pending ++ rest)).
    cbn [pollStatuses]. unfold pendingEffects in *. cbn [flat_map].
    destruct (pollOnce poll DEMO_FILES) as [effs p]. cbn [fst snd] in *. subst p.
    rewrite IH. rewrite <- !app_assoc. reflexivity.
Qed.

(** X16: a status request that fails while the demo documents are being
    polled, in the first round or after any number of rounds that ended
    with a retry, is not handled ([pollStatuses] is not awaited inside the
    [try]): the banner stays at ["processing"], the document list is
    neither refreshed nor changed, the timers armed are those of the
    earlier rounds only (no retry follows the failure), the run ends with
    the uncaught rejection, and later rounds never run. *)
Theorem demo_poll_failure (trigger : string -> Outcome unit)
    (pending : list (string -> Outcome (option string)))
    (poll : string -> Outcome (option string))
    (later : list (string -> Outcome (option string)))
    (listResponse : Outcome (option (list RawDocument))) (st : State) (msg : string) :
  (forall tid, trigger tid = Resolved tt) ->
  Forall (fun p => snd (pollOnce p DEMO_FILES) = NotDone) pending ->
  poll "demo_graph" = Rejected msg
  \/ (poll "demo_graph" = Resolved (Some "completed") /\ poll "demo_data" = Rejected msg) ->
  let r := startDemoIngestion trigger (pending ++ poll :: later) listResponse st in
  demo_status (demoIngestState (fst r)) = Some "processing" /\
  uploadedFiles (fst r) = uploadedFiles st /\
  List.filter isListCall (snd r) = [] /\
  List.filter isTimer (snd r) = repeat (SetTimeout 2000) (length pending) /\
  last (snd r) = Some (Uncaught msg) /\
  r = startDemoIngestion trigger (pending ++ [poll]) listResponse st.
Proof.
  intros Ht Hp H r. subst r. unfold startDemoIngestion. cbn [DEMO_FILES triggerAll].
  rewrite !Ht.
  rewrite !(pollStatuses_pending_prefix pending _ _ _ Hp).
  destruct (pendingEffects_filters pending) as [F1 F2].
  assert (Hstep : forall rest st1,
            exists effs,
              pollStatuses (poll :: rest) listResponse st1 = (st1, effs ++ [Uncaught msg]) /\
              List.filter isTimer effs = [] /\ List.filter isListCall effs = [] /\
              effs = fst (pollOnce poll DEMO_FILES)).
  { intros rest st1. cbn [pollStatuses DEMO_FILES pollOnce].
    destruct H as [H|[H1 H2]].
    - rewrite H. eexists. repeat split; reflexivity.
    - rewrite H1, H2. eexists. repeat split; reflexivity. }
  set (st1 := set_demoIngestState _ st).
  destruct (Hstep later st1) as [effs [E1 [E2 [E3 E4]]]].
  destruct (Hstep [] st1) as [effs' [E1' [_ [_ E4']]]].
  rewrite E1, E1'. cbn [fst snd]. subst effs'. rewrite <- E4.
  split; [reflexivity|]. split; [reflexivity|]. split; [|split; [|split]].
  - cbn [app List.filter isListCall]. rewrite !List.filter_app, F2, E3. reflexivity.
  - cbn [app List.filter isTimer]. rewrite !List.filter_app, F1, E2.
    cbn [List.filter isTimer]. rewrite !app_nil_r. reflexivity.
  - rewrite !app_assoc. apply last_snoc.
  - reflexivity.
Qed.

Lemma demo_poll_failure_witness :
  List.filter isTimer
    (snd (startDemoIngestion allResolved
            ([fun _ => Resolved (Some "processing")]
               ++ (fun _ => Rejected "timeout") :: [allCompleted])
            (Resolved None) (initial ∅)))
  = [SetTimeout 2000].
Proof.
  refine (proj1 (proj2 (proj2 (proj2
            (demo_poll_failure allResolved [fun _ => Resolved (Some "processing")]
               (fun _ => Rejected "timeout") [allCompleted]
               (Resolved None) (initial ∅) "timeout" (fun _ => eq_refl) _ _))))).
  - repeat constructor.
  - left. reflexivity.
Defined.

(** X17: while some demo document is reported not completed, every round of
    [pollStatuses] schedules exactly one retry in 2000 ms and nothing else
    changes: the state is as it was and the document list is not
    refreshed. *)
Theorem demo_poll_pending (rounds : list (string -> Outcome (option string)))
    (listResponse : Outcome (option (list RawDocument))) (st : State) :
  Forall (fun poll => snd (pollOnce poll DEMO_FILES) = NotDone) rounds ->
  let r := pollStatuses rounds listResponse st in
  fst r = st /\
  List.filter isTimer (snd r) = repeat (SetTimeout 2000) (length rounds) /\
  List.filter isListCall (snd r) = [].
Proof.
  intros H. induction H as [|poll later Hp _ IH]; [repeat split; reflexivity|].
  cbn [pollStatuses].
  assert (Hq : List.filter isTimer (fst (pollOnce poll DEMO_FILES)) = [] /\
               List.filter isListCall (fst (pollOnce poll DEMO_FILES)) = []).
  { cbn [DEMO_FILES pollOnce].
    destruct (poll "demo_graph") as [s1|]; [|split; reflexivity].
    destruct (negb (strictEq s1 (Some "completed"))); [split; reflexivity|].
    destruct (poll "demo_data") as [s2|]; [|split; reflexivity].
    destruct (negb (strictEq s2 (Some "completed"))); split; reflexivity. }
  destruct (pollOnce poll DEMO_FILES) as [effs p]. cbn [fst snd] in *. subst p.
  destruct (pollStatuses later listResponse st) as [st2 effs2]. cbn [fst snd] in *.
  destruct IH as [I1 [I2 I3]]. destruct Hq as [Q1 Q2].
  split; [exact I1|]. split.
  - rewrite List.filter_app, Q1. cbn [app List.filter isTimer length repeat].
    rewrite I2. reflexivity.
  - rewrite List.filter_app, Q2. cbn [app List.filter isListCall]. exact I3.
Qed.

Lemma demo_poll_pending_witness :
  fst (pollStatuses [fun _ => Resolved (Some "processing")] (Resolved None) (initial ∅))
  = initial ∅.
Proof.
  refine (proj1 (demo_poll_pending [fun _ => Resolved (Some "processing")]
                   (Resolved None) (initial ∅) _)).
  repeat constructor.
Defined.

(** X18: the effect on the demo-mode flag.  With demo mode off it clears the
    banner and the ingested flag, removes ["demoFilesIngested"] from
    [localStorage] (every other key is kept) and reloads the document list
    without any demo-ingest request, so the next mount starts with the flag
    off; with demo mode on and the flag already set it does nothing. *)
Theorem demo_mode_effect_off_or_done (trigger : string -> Outcome unit)
    (rounds : list (string -> Outcome (option string)))
    (listResponse : Outcome (option (list RawDocument))) (st : State) :
  let off := demoModeEffect false trigger rounds listResponse st in
  demoIngested (fst off) = false /\
  demoIngestState (fst off) = mkDemo None [] /\
  localStorage (fst off) = delete "demoFilesIngested" (localStorage st) /\
  demoIngested (loadDemoIngestedFlag (initial (localStorage (fst off)))) = false /\
  uploadedFiles (fst off) = uploadedFiles (fst (loadUploadedFiles listResponse st)) /\
  List.filter isCall (snd off) = [Call listDocuments] /\
  (demoIngested st = true ->
   demoModeEffect true trigger rounds listResponse st = (st, [])).
Proof.
  cbv zeta. unfold demoModeEffect. cbn [andb negb].
  set (st3 := set_localStorage _ _).
  pose proof (DemoIngestion.loadUploadedFiles_keeps_flags listResponse st3) as [H1 [H2 H3]].
  pose proof (Monitor.loadUploadedFiles_files listResponse st3 st) as H4.
  assert (H5 : List.filter isCall (snd (loadUploadedFiles listResponse st3))
               = [Call listDocuments]).
  { destruct listResponse as [documents|m]; simpl; [|reflexivity].
    destruct (List.find isActive (deriveFiles (default [] documents))); reflexivity. }
  destruct (loadUploadedFiles listResponse st3) as [st4 effs]. cbn [fst snd] in *.
  rewrite H1, H2, H3. subst st3.
  cbn [demoIngested demoIngestState localStorage set_localStorage set_demoIngested
       set_demoIngestState].
  repeat split; try assumption; try reflexivity.
  - unfold loadDemoIngestedFlag. cbn [localStorage initial].
    rewrite lookup_delete_eq. reflexivity.
  - intros Hd. rewrite Hd. reflexivity.
Qed.

Lemma demo_mode_effect_off_or_done_witness :
  demoModeEffect true allResolved [allCompleted] (Resolved None)
    (set_demoIngested true (initial ∅))
  = (set_demoIngested true (initial ∅), []).
Proof.
  exact (proj2 (proj2 (proj2 (proj2 (proj2 (proj2
           (demo_mode_effect_off_or_done allResolved [allCompleted] (Resolved None)
              (set_demoIngested true (initial ∅)))))))) eq_refl).
Defined.

End DemoFlow.

(** ** Chat sessions, further properties *)

Module ChatFlow.

Import ChatInterface.

Lemma strictEq_refl (sid : string) : strictEq (Some sid) (Some sid) = true.
Proof. simpl. apply String.eqb_refl. Qed.

Lemma findIndex_Some (sid : option string) (l : list ChatSession) (i : nat) :
  findIndex sid l = Some i ->
  exists s, l !! i = Some s /\ strictEq (sessionId s) sid = true.
Proof.
  revert i. induction l as [|a l IH]; intros i H; [discriminate|].
  cbn [findIndex] in H. destruct (strictEq (sessionId a) sid) eqn:Ha.
  - injection H as <-. exists a. auto.
  - destruct (findIndex sid l) as [j|]; [|discriminate].
    injection H as <-. exact (IH j eq_refl).
Qed.

Lemma findIndex_insert (sid : option string) (l : list ChatSession) (i : nat)
    (new : ChatSession) :
  findIndex sid l = Some i -> strictEq (sessionId new) sid = true ->
  findIndex sid (<[i := new]> l) = Some i.
Proof.
  revert i. induction l as [|a l IH]; intros i H Hn; [discriminate|].
  cbn [findIndex] in H. destruct (strictEq (sessionId a) sid) eqn:Ha.
  - injection H as <-. change (<[0 := new]> (a :: l)) with (new :: l).
    cbn [findIndex]. rewrite Hn. reflexivity.
  - destruct (findIndex sid l) as [j|] eqn:Hj; [|discriminate].
    injection H as <-. change (<[S j := new]> (a :: l)) with (a :: <[j := new]> l).
    cbn [findIndex]. rewrite Ha, (IH j eq_refl Hn). reflexivity.
Qed.

Lemma findIndex_app_new (sid : option string) (l : list ChatSession) (new : ChatSession) :
  findIndex sid l = None -> strictEq (sessionId new) sid = true ->
  findIndex sid (l ++ [new]) = Some (length l).
Proof.
  induction l as [|a l IH]; intros H Hn.
  - cbn [app findIndex length]. rewrite Hn. reflexivity.
  - cbn [findIndex] in H. change ((a :: l) ++ [new]) with (a :: (l ++ [new])).
    cbn [findIndex length]. destruct (strictEq (sessionId a) sid); [discriminate|].
    destruct (findIndex sid l); [discriminate|].
    rewrite (IH eq_refl Hn). reflexivity.
Qed.

(** X19: after a history load that the backend answers, the message list
    shown is never empty (the greeting stands in for a missing or empty
    history) and the session collection holds a session with that id whose
    cached messages are exactly the ones shown: looking the id up finds
    it. *)
Theorem history_load_caches (moduleLoadTime sid : string)
    (history : option (list Message)) (now : string) (st : State) :
  let r := loadChatHistory moduleLoadTime sid (Resolved history) now st in
  let shown := chatMessages (fst r) in
  shown = match history with
          | Some (m :: ms) => m :: ms
          | _ => [BOT_GREETING moduleLoadTime]
          end /\
  shown <> [] /\
  exists i s,
    findIndex (Some sid) (chatSessions (fst r)) = Some i /\
    chatSessions (fst r) !! i = Some s /\
    sessionId s = Some sid /\
    messages s = shown.
Proof.
  cbv zeta. unfold loadChatHistory. cbn [fst chatMessages set_chatMessages set_chatSessions
                                          chatSessions].
  set (loaded := if (length (default [] history) =? 0)%nat
                 then [BOT_GREETING moduleLoadTime] else default [] history).
  assert (Hl : loaded = match history with
                        | Some (m :: ms) => m :: ms
                        | _ => [BOT_GREETING moduleLoadTime]
                        end).
  { subst loaded. destruct history as [[|m ms]|]; reflexivity. }
  split; [exact Hl|]. split.
  { rewrite Hl. destruct history as [[|m ms]|]; discriminate. }
  destruct (findIndex (Some sid) (chatSessions st)) as [i|] eqn:Hf.
  - destruct (findIndex_Some _ _ _ Hf) as [s0 [Hs0 _]].
    exists i. eexists. split; [|split; [|split]].
    + apply (findIndex_insert _ _ _ _ Hf). apply strictEq_refl.
    + apply list_lookup_insert_eq. apply lookup_lt_Some in Hs0. exact Hs0.
    + reflexivity.
    + reflexivity.
  - exists (length (chatSessions st)). eexists. split; [|split; [|split]].
    + apply (findIndex_app_new _ _ _ Hf). apply strictEq_refl.
    + rewrite lookup_app_r by lia. rewrite Nat.sub_diag. reflexivity.
    + reflexivity.
    + reflexivity.
Qed.

(** X20: an answered history load touches one session only.  When the id is
    already in the collection, the first session carrying it has its
    messages replaced and keeps its creation date, the collection keeps its
    length and every other position is as before; when it is not, one
    session is appended at the end, dated [now]. *)
Theorem history_load_frame (moduleLoadTime sid : string)
    (history : option (list Message)) (now : string) (st : State) :
  let r := loadChatHistory moduleLoadTime sid (Resolved history) now st in
  match findIndex (Some sid) (chatSessions st) with
  | Some i =>
      length (chatSessions (fst r)) = length (chatSessions st) /\
      (forall j, j <> i -> chatSessions (fst r) !! j = chatSessions st !! j) /\
      createdAt <$> chatSessions (fst r) !! i = createdAt <$> chatSessions st !! i
  | None =>
      chatSessions (fst r)
      = chatSessions st ++ [mkSession (Some sid) (Some now) (chatMessages (fst r))]
  end.
Proof.
  cbv zeta. unfold loadChatHistory. cbn [fst chatMessages set_chatMessages set_chatSessions
                                          chatSessions].
  destruct (findIndex (Some sid) (chatSessions st)) as [i|] eqn:Hf; [|reflexivity].
  destruct (findIndex_Some _ _ _ Hf) as [s0 [Hs0 _]].
  split; [apply length_insert|]. split.
  - intros j Hj. apply list_lookup_insert_ne. congruence.
  - rewrite list_lookup_insert_eq by (apply lookup_lt_Some in Hs0; exact Hs0).
    rewrite Hs0. reflexivity.
Qed.

Lemma history_load_frame_witness :
  chatSessions
    (fst (loadChatHistory "t0" "s1" (Resolved None) "n1"
            (mkState [] "" false false None
               [mkSession (Some "s0") (Some "c0") []; mkSession (Some "s1") (Some "c1") []]
               (Some "s1")))) !! 0
  = Some (mkSession (Some "s0") (Some "c0") []).
Proof.
  rewrite (proj1 (proj2
             (history_load_frame "t0" "s1" None "n1"
                (mkState [] "" false false None
                   [mkSession (Some "s0") (Some "c0") [];
                    mkSession (Some "s1") (Some "c1") []]
                   (Some "s1")))) 0); [reflexivity|discriminate].
Defined.

(** X21: [handleNewChat] puts a session holding exactly the greeting in
    front of the existing ones, selects it and shows the greeting; the
    history load this selection triggers, when the backend has nothing for
    the new id (or fails), requests that id's history and leaves the state
    exactly as [handleNewChat] left it: no second entry is added. *)
Theorem new_chat_then_history (moduleLoadTime nowMs nowIso : string)
    (resp : Outcome (option (list Message))) (now : string) (st : State) :
  noHistory resp = true ->
  let st1 := handleNewChat moduleLoadTime nowMs nowIso st in
  let sid := String.append "chat_" nowMs in
  chatSessions st1
    = mkSession (Some sid) (Some nowIso) [BOT_GREETING moduleLoadTime] :: chatSessions st /\
  activeSessionId st1 = Some sid /\
  chatMessages st1 = [BOT_GREETING moduleLoadTime] /\
  activeSessionEffect moduleLoadTime resp now st1 = (st1, [Call (getChatHistory sid)]).
Proof.
  intros Hn. cbv zeta.
  split; [reflexivity|]. split; [reflexivity|]. split; [reflexivity|].
  assert (Ha : activeSessionEffect moduleLoadTime resp now
                 (handleNewChat moduleLoadTime nowMs nowIso st)
               = loadChatHistory moduleLoadTime (String.append "chat_" nowMs) resp now
                   (handleNewChat moduleLoadTime nowMs nowIso st)) by reflexivity.
  rewrite Ha. clear Ha.
  unfold loadChatHistory, handleNewChat.
  destruct resp as [[[|m ms]|]|msg]; try discriminate; try reflexivity;
    cbn [chatSessions set_chatSessions set_chatMessages set_activeSessionId findIndex
         sessionId];
    rewrite strictEq_refl; reflexivity.
Qed.

Lemma new_chat_then_history_witness :
  let st := mkState [] "" false false None [] None in
  activeSessionEffect "t0" (Resolved (Some [])) "n1" (handleNewChat "t0" "1700" "iso" st)
  = (handleNewChat "t0" "1700" "iso" st, [Call (getChatHistory "chat_1700")]).
Proof.
  intros st.
  exact (proj2 (proj2 (proj2
           (new_chat_then_history "t0" "1700" "iso" (Resolved (Some [])) "n1" st eq_refl)))).
Defined.

Lemma sendable_Some (arg : SendArg) (st : State) (s : string) :
  sendable arg st = Some s ->
  match arg with OverrideText s0 => s0 | _ => inputMessage st end = s /\
  arg <> OverrideEvent /\
  negb (nonEmpty (trim s)) || loading st = false /\
  negb (hasDocument st) || negb (bool_decide (is_Some (activeDocument st))) = false.
Proof.
  unfold sendable. intros H.
  destruct (messageToSend arg st) as [s'|] eqn:Hm; [|discriminate].
  destruct (blank s' || loading st || noActiveDocument st) eqn:Hg; [discriminate|].
  injection H as ->.
  apply orb_false_iff in Hg as [Hg Hn].
  rewrite Chat.trim_blank.
  destruct arg; simpl in Hm; try discriminate; injection Hm as ->;
    (split; [reflexivity|split; [discriminate|split; [exact Hg|exact Hn]]]).
Qed.

Lemma send_through (arg : SendArg) (response : Outcome QueryResponse)
    (t1 t2 : string) (st : State) (s : string) :
  sendable arg st = Some s ->
  handleSendMessage arg response t1 t2 st =
    handleSendMessage (OverrideText s) response t1 t2 st.
Proof.
  intros H. destruct (sendable_Some _ _ _ H) as [Hm [Ha _]].
  destruct arg; [|subst; reflexivity|contradiction].
  unfold handleSendMessage. rewrite Hm. reflexivity.
Qed.

(** X22: a send that goes through and is answered appends the user message
    and then the assistant's answer to the list shown, clears the input
    box, ends with no send in flight and has issued exactly one query,
    scoped to the active session and the active document's [task_id].  In
    the session collection the first session carrying the active id gets
    the same two messages appended, so a cache that agreed with the list
    shown still agrees; when no session carries the active id the
    collection is unchanged. *)
Theorem send_success (arg : SendArg) (rsp : QueryResponse) (t1 t2 : string)
    (st : State) (s : string) :
  sendable arg st = Some s ->
  let r := handleSendMessage arg (Resolved rsp) t1 t2 st in
  let exchange := [userMessageAt s t1; assistantMessageAt rsp t2] in
  chatMessages (fst r) = chatMessages st ++ exchange /\
  inputMessage (fst r) = "" /\
  loading (fst r) = false /\
  snd r = [Call (queryDocument s (activeSessionId st)
                   (activeDocument st ≫= AdminDashboard.task_id))] /\
  (forall sid i sess,
     activeSessionId st = Some sid ->
     findIndex (Some sid) (chatSessions st) = Some i ->
     chatSessions st !! i = Some sess ->
     chatSessions (fst r)
       = <[i := mkSession (sessionId sess) (createdAt sess) (messages sess ++ exchange)]>
           (chatSessions st) /\
     (messages sess = chatMessages st ->
      messages <$> chatSessions (fst r) !! i = Some (chatMessages (fst r)))) /\
  (forall sid,
     activeSessionId st = Some sid ->
     findIndex (Some sid) (chatSessions st) = None ->
     chatSessions (fst r) = chatSessions st).
Proof.
  intros H. cbv zeta. rewrite (send_through _ _ _ _ _ _ H).
  destruct (sendable_Some _ _ _ H) as [_ [_ [Hg Hn]]].
  unfold handleSendMessage. rewrite Hg, Hn.
  cbn [fst snd chatMessages inputMessage loading chatSessions activeSessionId
       set_chatMessages set_inputMessage set_loading set_chatSessions].
  split; [rewrite <- app_assoc; reflexivity|].
  split; [reflexivity|]. split; [reflexivity|]. split; [reflexivity|].
  split.
  - intros sid i sess Ha Hf Hs. rewrite Ha, Hf, Hs.
    split; [reflexivity|].
    intros Hsync. rewrite list_lookup_insert_eq by (apply lookup_lt_Some in Hs; exact Hs).
    cbn [fmap option_fmap option_map messages]. rewrite Hsync, <- app_assoc. reflexivity.
  - intros sid Ha Hf. rewrite Ha, Hf. reflexivity.
Qed.

Lemma send_success_witness :
  chatMessages
    (fst (handleSendMessage NoOverride (Resolved (mkQueryResponse (Some "A summary.") None None))
            "t1" "t2" readyState))
  = chatMessages readyState
    ++ [userMessageAt "What is the summary?" "t1";
        assistantMessageAt (mkQueryResponse (Some "A summary.") None None) "t2"].
Proof.
  exact (proj1 (send_success NoOverride (mkQueryResponse (Some "A summary.") None None)
                  "t1" "t2" readyState "What is the summary?" eq_refl)).
Defined.

(** X23: a send that goes through but whose query fails is not propagated:
    the user message and an apology flagged as an error are appended to the
    list shown, the input box is cleared and no send is left in flight, but
    the session collection is left as it was, so the failed exchange is
    shown without being cached. *)
Theorem send_failure (arg : SendArg) (msg : string) (t1 t2 : string)
    (st : State) (s : string) :
  sendable arg st = Some s ->
  let r := handleSendMessage arg (Rejected msg) t1 t2 st in
  chatMessages (fst r) = chatMessages st ++ [userMessageAt s t1; apologyAt t2] /\
  isError (apologyAt t2) = true /\
  chatSessions (fst r) = chatSessions st /\
  inputMessage (fst r) = "" /\
  loading (fst r) = false /\
  snd r = [Call (queryDocument s (activeSessionId st)
                   (activeDocument st ≫= AdminDashboard.task_id))].
Proof.
  intros H. cbv zeta. rewrite (send_through _ _ _ _ _ _ H).
  destruct (sendable_Some _ _ _ H) as [_ [_ [Hg Hn]]].
  unfold handleSendMessage. rewrite Hg, Hn.
  cbn [fst snd chatMessages inputMessage loading chatSessions activeSessionId
       set_chatMessages set_inputMessage set_loading set_chatSessions].
  split; [rewrite <- app_assoc; reflexivity|].
  repeat split; reflexivity.
Qed.

Lemma send_failure_witness :
  chatSessions (fst (handleSendMessage NoOverride (Rejected "500") "t1" "t2" readyState))
  = chatSessions readyState.
Proof.
  exact (proj1 (proj2 (proj2
           (send_failure NoOverride "500" "t1" "t2" readyState "What is the summary?"
              eq_refl)))).
Defined.

Lemma send_blocked (arg : SendArg) (response : Outcome QueryResponse)
    (t1 t2 : string) (st : State) :
  sendable arg st = None ->
  fst (handleSendMessage arg response t1 t2 st) = st.
Proof.
  unfold sendable, handleSendMessage. intros H.
  destruct arg as [|s|]; cbn [messageToSend] in H; [| |reflexivity].
  - rewrite Chat.trim_blank.
    destruct (blank (inputMessage st) || loading st); [reflexivity|].
    cbn [orb] in H. unfold noActiveDocument in H.
    destruct (negb (hasDocument st) || negb (bool_decide (is_Some (activeDocument st))));
      [reflexivity|discriminate].
  - rewrite Chat.trim_blank.
    destruct (blank s || loading st); [reflexivity|].
    cbn [orb] in H. unfold noActiveDocument in H.
    destruct (negb (hasDocument st) || negb (bool_decide (is_Some (activeDocument st))));
      [reflexivity|discriminate].
Qed.

(** X24: whatever it is invoked with and however the backend answers,
    [handleSendMessage] only ever appends to the list shown (nothing, or a
    user message followed by one assistant message), returns with the
    in-flight flag as it found it, and never changes the active session,
    the active document or the number of sessions. *)
Theorem send_only_appends (arg : SendArg) (response : Outcome QueryResponse)
    (t1 t2 : string) (st : State) :
  let st' := fst (handleSendMessage arg response t1 t2 st) in
  (exists suffix,
     chatMessages st' = chatMessages st ++ suffix /\
     (suffix = [] \/
      exists answer, suffix = [userMessageAt (default "" (sendable arg st)) t1; answer] /\
                     role answer = "assistant")) /\
  loading st' = loading st /\
  activeSessionId st' = activeSessionId st /\
  activeDocument st' = activeDocument st /\
  length (chatSessions st') = length (chatSessions st).
Proof.
  cbv zeta. destruct (sendable arg st) as [s|] eqn:Hs.
  - assert (Hl : loading st = false).
    { destruct (sendable_Some _ _ _ Hs) as [_ [_ [Hg _]]].
      apply orb_false_iff in Hg as [_ Hg]. exact Hg. }
    rewrite (send_through _ _ _ _ _ _ Hs).
    destruct (sendable_Some _ _ _ Hs) as [_ [_ [Hg Hn]]].
    unfold handleSendMessage. rewrite Hg, Hn, Hl.
    destruct response as [rsp|msg];
      cbn [fst chatMessages loading chatSessions activeSessionId activeDocument
           set_chatMessages set_inputMessage set_loading set_chatSessions default].
    + split; [|split; [reflexivity|split; [reflexivity|split; [reflexivity|]]]].
      * exists [userMessageAt s t1; assistantMessageAt rsp t2].
        split; [rewrite <- app_assoc; reflexivity|].
        right. eexists. split; reflexivity.
      * destruct (findIndex (activeSessionId st) (chatSessions st)) as [i|]; [|reflexivity].
        destruct (chatSessions st !! i); [apply length_insert|reflexivity].
    + split; [|repeat split; reflexivity].
      exists [userMessageAt s t1; apologyAt t2].
      split; [rewrite <- app_assoc; reflexivity|].
      right. eexists. split; reflexivity.
  - rewrite (send_blocked _ _ _ _ _ Hs).
    split; [|repeat split; reflexivity].
    exists []. split; [rewrite app_nil_r; reflexivity|left; reflexivity].
Qed.

End ChatFlow.

(** ** The API client's session handling *)

Module Client.

Import ApiService.

(** X25: [logout] always ends with the token forgotten and both
    ["access_token"] and ["user"] gone from [localStorage], every other key
    kept, whether or not the request could be sent or answered; the request
    is sent only when the client holds a non-empty token, and a client
    rebuilt from the cleaned storage holds no token. *)
Theorem logout_always_cleans (response : HttpResult unit) (c : Client) :
  let r := logout response c in
  let c' := snd (fst r) in
  token c' = None /\
  storage c' !! "access_token" = None /\
  storage c' !! "user" = None /\
  (forall k, k <> "access_token" -> k <> "user" -> storage c' !! k = storage c !! k) /\
  fst (fst r) = truthy (token c) /\
  token (construct (storage c')) = None.
Proof.
  cbv zeta.
  assert (Hc : snd (fst (logout response c))
               = {| token := None;
                    storage := delete "user" (delete "access_token" (storage c)) |}).
  { unfold logout. destruct (truthy (token c)); [destruct response|]; reflexivity. }
  assert (Hs : fst (fst (logout response c)) = truthy (token c)).
  { unfold logout. destruct (truthy (token c)); [destruct response|]; reflexivity. }
  rewrite Hc, Hs. cbn [token storage construct].
  assert (Ha : delete "user" (delete "access_token" (storage c)) !! "access_token" = None).
  { rewrite lookup_delete_ne by discriminate. apply lookup_delete_eq. }
  split; [reflexivity|]. split; [exact Ha|]. split; [apply lookup_delete_eq|].
  split; [|split; [reflexivity|exact Ha]].
  intros k H1 H2. rewrite !lookup_delete_ne by congruence. reflexivity.
Qed.

Lemma logout_always_cleans_witness :
  storage (snd (fst (logout (NetworkError "offline")
                       (construct (<["theme" := "dark"]> (<["access_token" := "tok"]> ∅))))))
    !! "theme"
  = Some "dark".
Proof.
  rewrite (proj1 (proj2 (proj2 (proj2
             (logout_always_cleans (NetworkError "offline")
                (construct (<["theme" := "dark"]> (<["access_token" := "tok"]> ∅)))))))
             "theme"); [reflexivity|discriminate|discriminate].
Defined.



End Client.

(** ** Start-up and navigation *)

Module Startup.

Import App.

(** X27: [checkSessionAndLoadChats] never restores a session: from the
    initial state, for every content of [localStorage] and whatever the
    backend would answer, it ends with no user, no chat session, no active
    session and the loading flag off, without a backend request, so the
    login view is rendered.  [localStorage] is wiped when it held a
    non-empty identity and token, and left alone otherwise. *)
Theorem boot_ends_logged_out (jsonParse : string -> option Identity)
    (sessionsResp : Outcome (option (list ChatSession))) (nowMs nowIso : string)
    (ls : gmap string string) (document : option AdminDashboard.Document) :
  let r := checkSessionAndLoadChats jsonParse sessionsResp nowMs nowIso (initial ls) in
  user (fst r) = None /\
  chatSessions (fst r) = [] /\
  activeSessionId (fst r) = None /\
  isLoading (fst r) = false /\
  List.filter (fun e => match e with Call _ => true | Log _ => false end) (snd r) = [] /\
  localStorage (fst r)
    = (if truthy (ls !! "user") && truthy (ls !! "access_token") then ∅ else ls) /\
  render (mkShell (fst r) document) = LoginView.
Proof.
  cbv zeta. unfold checkSessionAndLoadChats.
  rewrite Bootstrap.getChatSessions_undefined.
  cbn [localStorage initial negb].
  destruct (truthy (ls !! "user") && truthy (ls !! "access_token")).
  - destruct (jsonParse (default "" (ls !! "user"))); repeat split; reflexivity.
  - repeat split; reflexivity.
Qed.

(** X28: a login does not survive a reload: after a successful
    [ApiService.login] that stored a non-empty token and identity, the next
    start-up check run on that [localStorage] ends logged out and with
    [localStorage] emptied. *)
Theorem login_does_not_survive_reload (data : ApiService.LoginData) (c : ApiService.Client)
    (tok userJson : string) (jsonParse : string -> option Identity)
    (sessionsResp : Outcome (option (list ChatSession))) (nowMs nowIso : string) :
  ApiService.access_token data = Some tok -> tok <> "" ->
  ApiService.user_json data = Some userJson -> userJson <> "" ->
  let stored := ApiService.storage (fst (ApiService.login (ApiService.HttpOk data) c)) in
  let r := checkSessionAndLoadChats jsonParse sessionsResp nowMs nowIso (initial stored) in
  stored !! "access_token" = Some tok /\
  stored !! "user" = Some userJson /\
  user (fst r) = None /\
  localStorage (fst r) = ∅.
Proof.
  intros Ht Htn Hu Hun. cbv zeta. cbn [ApiService.login fst ApiService.storage].
  rewrite Ht, Hu. cbn [ApiService.storedString default from_option id].
  set (stored := <["user" := userJson]> (<["access_token" := tok]> (ApiService.storage c))).
  assert (H1 : stored !! "access_token" = Some tok).
  { subst stored. rewrite lookup_insert_ne by discriminate. apply lookup_insert_eq. }
  assert (H2 : stored !! "user" = Some userJson) by apply lookup_insert_eq.
  split; [exact H1|]. split; [exact H2|].
  unfold checkSessionAndLoadChats.
  rewrite Bootstrap.getChatSessions_undefined.
  cbn [localStorage initial negb]. rewrite H1, H2.
  rewrite (Bootstrap.truthy_Some _ Htn), (Bootstrap.truthy_Some _ Hun).
  cbn [andb default from_option id].
  destruct (jsonParse userJson); split; reflexivity.
Qed.

Lemma login_does_not_survive_reload_witness :
  user
    (fst (checkSessionAndLoadChats (fun _ => Some (mkIdentity (Some "user") false))
            (Resolved (Some [oneSession])) "1700000000000" "2023-11-14T22:13:20.000Z"
            (initial
               (ApiService.storage
                  (fst (ApiService.login
                          (ApiService.HttpOk (ApiService.mkLoginData (Some "tok") (Some "{}")))
                          (ApiService.construct ∅)))))))
  = None.
Proof.
  refine (proj1 (proj2 (proj2
            (login_does_not_survive_reload
               (ApiService.mkLoginData (Some "tok") (Some "{}")) (ApiService.construct ∅)
               "tok" "{}" _ _ _ _ eq_refl _ eq_refl _)))); discriminate.
Defined.

Lemma handleAll_snoc (events : list UiEvent) (e : UiEvent) (sh : Shell) :
  handleAll (events ++ [e]) sh = handle e (handleAll events sh).
Proof. unfold handleAll. rewrite fold_left_app. reflexivity. Qed.

Lemma handle_keeps_loading_and_storage (e : UiEvent) (sh : Shell) :
  isLoading (core (handle e sh)) = isLoading (core sh) /\
  localStorage (core (handle e sh)) = localStorage (core sh).
Proof. destruct e; split; reflexivity. Qed.

Lemma handleAll_keeps_loading_and_storage (events : list UiEvent) (sh : Shell) :
  isLoading (core (handleAll events sh)) = isLoading (core sh) /\
  localStorage (core (handleAll events sh)) = localStorage (core sh).
Proof.
  revert sh. induction events as [|e events IH]; intros sh; [split; reflexivity|].
  change (handleAll (e :: events) sh) with (handleAll events (handle e sh)).
  destruct (IH (handle e sh)) as [H1 H2].
  destruct (handle_keeps_loading_and_storage e sh) as [H3 H4].
  rewrite H1, H2, H3, H4. split; reflexivity.
Qed.

(** X29: once loading is over, after any sequence of logins, logouts and
    navigation events, the login view is rendered exactly when no user is
    set, and [localStorage] is untouched by these handlers.  Right after a
    logout the sessions, the active session and the active document are
    cleared and the view selector is back to chat; right after a login the
    chat view is rendered when the response carried an identity, even if the
    admin view was showing before. *)
Theorem view_follows_login (events : list UiEvent) (sh : Shell) :
  isLoading (core sh) = false ->
  let sh' := handleAll events sh in
  (render sh' = LoginView <-> user (core sh') = None) /\
  localStorage (core sh') = localStorage (core sh) /\
  (last events = Some LoggedOut ->
   render sh' = LoginView /\ chatSessions (core sh') = [] /\
   activeSessionId (core sh') = None /\ activeDocument sh' = None /\
   currentView (core sh') = "chat") /\
  (forall userData, last events = Some (LoggedIn (Some userData)) -> render sh' = ChatView).
Proof.
  intros Hl sh'.
  destruct (handleAll_keeps_loading_and_storage events sh) as [H1 H2].
  fold sh' in H1, H2. rewrite Hl in H1.
  split; [|split; [exact H2|split]].
  - unfold render. rewrite H1.
    destruct (user (core sh')); [|tauto].
    destruct (String.eqb (currentView (core sh')) "admin"); split; discriminate.
  - intros He. apply last_Some in He as [l ->].
    subst sh'. rewrite handleAll_snoc in *.
    unfold render. rewrite H1. repeat split; reflexivity.
  - intros userData He. apply last_Some in He as [l ->].
    subst sh'. rewrite handleAll_snoc in *.
    unfold render. rewrite H1. reflexivity.
Qed.

Lemma view_follows_login_witness :
  render (handleAll [LoggedIn (Some (mkIdentity (Some "user") false)); ShowAdmin; LoggedOut;
                     LoggedIn (Some (mkIdentity (Some "admin") true))]
            (mkShell (set_isLoading false (initial ∅)) None))
  = ChatView.
Proof.
  refine (proj2 (proj2 (proj2
            (view_follows_login
               [LoggedIn (Some (mkIdentity (Some "user") false)); ShowAdmin; LoggedOut;
                LoggedIn (Some (mkIdentity (Some "admin") true))]
               (mkShell (set_isLoading false (initial ∅)) None) eq_refl)))
            (mkIdentity (Some "admin") true) eq_refl).
Defined.

End Startup.

(** ** Demo mode store *)

Module DemoMode.

Import DemoModeProvider.

(** X30: the demo-mode flag survives a reload: the value the provider
    persists is the value it starts from next time, every other key of
    [localStorage] is left alone, and with no stored value (or any value
    other than ["true"]) the provider starts with demo mode off. *)
Theorem demo_mode_round_trip (isDemoMode : bool) (ls : gmap string string) :
  init (persist isDemoMode ls) = isDemoMode /\
  (forall k, k <> "isDemoMode" -> persist isDemoMode ls !! k = ls !! k) /\
  (forall v, ls !! "isDemoMode" = Some v -> v <> "true" -> init ls = false) /\
  (ls !! "isDemoMode" = None -> init ls = false).
Proof.
  unfold init, persist. split; [|split; [|split]].
  - rewrite lookup_insert_eq. destruct isDemoMode; reflexivity.
  - intros k Hk. apply lookup_insert_ne. congruence.
  - intros v Hv Hne. rewrite Hv. apply bool_decide_eq_false. congruence.
  - intros ->. reflexivity.
Qed.

Lemma demo_mode_round_trip_witness :
  persist true (<["access_token" := "tok"]> ∅) !! "access_token" = Some "tok".
Proof.
  rewrite (proj1 (proj2 (demo_mode_round_trip true (<["access_token" := "tok"]> ∅)))
             "access_token"); [reflexivity|discriminate].
Defined.

End DemoMode.
